(** * kkerti.dev temperature lab: the ingestion endpoint, the client data
      layer, the graph renderer and the refresh scheduler.

    Sources embedded here:
    - [src/routes/lab/api/+server.ts]  (handlers [POST] and [GET]);
    - the SQL schema of [temperature_readings];
    - the Svelte page of the lab ([fetchTemperatureData],
      [generateTemperatureData], [addTemperatureReading],
      [setupAutoRefresh], [xScale], [yScale], [generatePath],
      [handleMouseMove]).

    Conventions.  A JavaScript number is represented by the exact rational
    it denotes (type [Js.num]: a rational, an infinity or NaN); the
    built-ins whose result depends on IEEE rounding, on the locale or on the
    clock ([parseFloat] on strings, [Number::toString], [JSON.stringify],
    [Date] parsing and formatting, [Math.sin], [Math.random], [Date.now])
    are the fields of the class [Js.Host], and every theorem holds for all
    hosts.  [reference] is one executable host used to run the model on
    concrete inputs. *)

From Stdlib Require Import ZArith QArith Qminmax Qround Qabs Lqa.
From Stdlib Require Import List String Ascii Lia Permutation Bool.
From stdpp Require Import gmap.
Import ListNotations.

Local Open Scope string_scope.
Set Warnings "-register-all".


(* ===================================================================== *)
(** * JavaScript values                                                   *)
(* ===================================================================== *)

Module Js.

(** Numbers: NaN, the two infinities and the finite values. *)
Inductive num : Type :=
| NaN
| NegInf
| PosInf
| Fin (q : Q).

Definition of_Z (z : Z) : num := Fin (inject_Z z).

Definition Qltb (x y : Q) : bool := negb (Qle_bool y x).

Definition isNaN (n : num) : bool :=
  match n with NaN => true | _ => false end.

(** [a < b]; every comparison with NaN is false. *)
Definition ltb (a b : num) : bool :=
  match a, b with
  | NaN, _ | _, NaN => false
  | _, NegInf => false
  | NegInf, _ => true
  | PosInf, _ => false
  | Fin _, PosInf => true
  | Fin x, Fin y => Qltb x y
  end.

(** [a > b]. *)
Definition gtb (a b : num) : bool := ltb b a.

Definition opp (a : num) : num :=
  match a with
  | NaN => NaN
  | NegInf => PosInf
  | PosInf => NegInf
  | Fin x => Fin (- x)
  end.

(** [a + b]. *)
Definition add (a b : num) : num :=
  match a, b with
  | NaN, _ | _, NaN => NaN
  | PosInf, NegInf | NegInf, PosInf => NaN
  | PosInf, _ | _, PosInf => PosInf
  | NegInf, _ | _, NegInf => NegInf
  | Fin x, Fin y => Fin (x + y)
  end.

(** [a - b]. *)
Definition sub (a b : num) : num := add a (opp b).

(** [Math.min(a, b)]: NaN as soon as one argument is NaN. *)
Definition min (a b : num) : num :=
  match a, b with
  | NaN, _ | _, NaN => NaN
  | _, _ => if ltb b a then b else a
  end.

(** [Math.max(a, b)]: NaN as soon as one argument is NaN. *)
Definition max (a b : num) : num :=
  match a, b with
  | NaN, _ | _, NaN => NaN
  | _, _ => if ltb a b then b else a
  end.

(** ** Strings *)

Definition isStrWhiteSpaceChar (c : ascii) : bool :=
  let n := nat_of_ascii c in
  Nat.eqb n 32 || (Nat.leb 9 n && Nat.leb n 13).

Fixpoint trimStart (s : string) : string :=
  match s with
  | String c rest => if isStrWhiteSpaceChar c then trimStart rest else s
  | EmptyString => s
  end.

(** The value of a digit character, [0-9], [a-z] and [A-Z]. *)
Definition digitValue (c : ascii) : option Z :=
  let n := Z.of_nat (nat_of_ascii c) in
  if (48 <=? n)%Z && (n <=? 57)%Z then Some (n - 48)%Z
  else if (97 <=? n)%Z && (n <=? 122)%Z then Some (n - 87)%Z
  else if (65 <=? n)%Z && (n <=? 90)%Z then Some (n - 55)%Z
  else None.

(** The longest prefix of [s] made of digits of [radix]: its value
    continuing [acc], the number of digits read and the rest. *)
Fixpoint readDigits (radix : Z) (s : string) (acc : Z) (count : nat)
  : Z * nat * string :=
  match s with
  | String c rest =>
      match digitValue c with
      | Some d =>
          if (d <? radix)%Z
          then readDigits radix rest (acc * radix + d)%Z (S count)
          else (acc, count, s)
      | None => (acc, count, s)
      end
  | EmptyString => (acc, count, s)
  end.

(** An optional sign: the factor and the rest. *)
Definition readSign (s : string) : Z * string :=
  match s with
  | String "-" rest => ((-1)%Z, rest)
  | String "+" rest => (1%Z, rest)
  | _ => (1%Z, s)
  end.

(** [parseInt(s)] with no radix argument: leading white space, a sign, an
    optional [0x] prefix, then the longest run of digits; NaN when there
    is none. *)
Definition parseInt (input : string) : num :=
  let '(sign, s) := readSign (trimStart input) in
  let '(radix, s) :=
    match s with
    | String "0" (String "x" rest) => (16%Z, rest)
    | String "0" (String "X" rest) => (16%Z, rest)
    | _ => (10%Z, s)
    end in
  match readDigits radix s 0 0 with
  | (_, O, _) => NaN
  | (v, S _, _) => of_Z (sign * v)
  end.

(** ** JSON values, as [request.json()] and [response.json()] give them *)

Inductive Json : Type :=
| JNull
| JBool (b : bool)
| JNum (q : Q)
| JStr (s : string)
| JArr (items : list Json)
| JObj (props : list (string * Json)).

(** A JavaScript value handed to a built-in: [undefined], a number that
    need not be finite, or a JSON value. *)
Inductive value : Type :=
| VUndefined
| VNum (n : num)
| VJson (j : Json).

(** Own property [key] of an object; [None] stands for [undefined]. *)
Fixpoint lookupProp (key : string) (props : list (string * Json))
  : option Json :=
  match props with
  | [] => None
  | (k, v) :: rest => if String.eqb k key then Some v else lookupProp key rest
  end.

(** [v.key] for a key that no prototype defines. *)
Definition getProp (v : Json) (key : string) : option Json :=
  match v with
  | JObj props => lookupProp key props
  | _ => None
  end.

(** Truthiness of a property read. *)
Definition truthy (v : option Json) : bool :=
  match v with
  | None => false
  | Some JNull => false
  | Some (JBool b) => b
  | Some (JNum q) => negb (Qeq_bool q 0)
  | Some (JStr s) => negb (String.eqb s "")
  | Some (JArr _) => true
  | Some (JObj _) => true
  end.

(** The built-ins of the host that the model does not compute. *)
Class Host : Type := {
  (** [parseFloat] on a string *)
  parseFloatString : string -> num;
  (** [Number::toString] of a finite number *)
  numberToString : Q -> string;
  (** [JSON.stringify] *)
  jsonStringify : Json -> string;
  (** [new Date(s).getTime()]: milliseconds, NaN for an invalid date *)
  dateGetTime : string -> num;
  (** [new Date(ms).toLocaleTimeString('en-US', {hour12: false, ...})] *)
  toLocaleTimeString : num -> string;
  (** [Math.sin] *)
  mathSin : Q -> Q;
  (** the k-th value returned by [Math.random()] *)
  mathRandom : nat -> Q;
  (** the k-th value returned by [Date.now()] *)
  dateNow : nat -> Z
}.

Section WithHost.
Context `{Host}.

(** [ToString] of a JSON value. *)
Fixpoint toString (v : Json) : string :=
  match v with
  | JNull => "null"
  | JBool true => "true"
  | JBool false => "false"
  | JNum q => numberToString q
  | JStr s => s
  | JArr items =>
      String.concat ","
        (map (fun e => match e with JNull => "" | _ => toString e end) items)
  | JObj _ => "[object Object]"
  end.

(** [ToString] of a property read. *)
Definition toStringOf (v : option Json) : string :=
  match v with
  | None => "undefined"
  | Some j => toString j
  end.

(** [parseFloat(v)]: the argument is converted with [ToString] first. *)
Definition parseFloat (v : option Json) : num :=
  parseFloatString (toStringOf v).

End WithHost.

End Js.

(* ===================================================================== *)
(** * A reference host                                                    *)
(* ===================================================================== *)

(** An executable host: decimal reading and printing without IEEE
    rounding, dates of the form [YYYY-MM-DD HH:MM:SS] read in UTC, a Taylor
    polynomial for the sine and a congruential generator for the random
    numbers. *)
Module Reference.
Import Js.

Definition startsWith (p s : string) : bool := String.prefix p s.

Definition dropChars (n : nat) (s : string) : string :=
  String.substring n (String.length s - n) s.

(** An exponent part [e], [e+] or [e-] followed by at least one digit. *)
Definition readExponent (s : string) : Z :=
  match s with
  | String c rest =>
      if Ascii.eqb c "e" || Ascii.eqb c "E" then
        let '(sign, rest') := readSign rest in
        match readDigits 10 rest' 0 0 with
        | (_, O, _) => 0%Z
        | (v, S _, _) => (sign * v)%Z
        end
      else 0%Z
  | EmptyString => 0%Z
  end.

(** The longest prefix of the trimmed string that is a decimal literal. *)
Definition parseFloatString (input : string) : num :=
  let '(sign, s) := readSign (trimStart input) in
  if startsWith "Infinity" s then (if (sign <? 0)%Z then NegInf else PosInf)
  else
    let '(ip, ni, s1) := readDigits 10 s 0 0 in
    let '(mant, nf, s2) :=
      match s1 with
      | String "." rest => readDigits 10 rest ip 0
      | _ => (ip, O, s1)
      end in
    match (ni + nf)%nat with
    | O => NaN
    | S _ =>
        let e := (readExponent s2 - Z.of_nat nf)%Z in
        Fin (Qred (inject_Z (sign * mant) * Qpower (inject_Z 10) e))
    end.

Definition digitChar (d : Z) : string :=
  String (ascii_of_nat (48 + Z.to_nat d)) EmptyString.

Fixpoint printNat (fuel : nat) (n : Z) : string :=
  match fuel with
  | O => ""
  | S fuel' =>
      if (n <? 10)%Z then digitChar n
      else printNat fuel' (n / 10) ++ digitChar (n mod 10)
  end.

Definition printZ (z : Z) : string :=
  let body := printNat (S (Z.to_nat (Z.log2 (Z.abs z)))) (Z.abs z) in
  if (z <? 0)%Z then "-" ++ body else body.

Fixpoint printFraction (fuel : nat) (n d : Z) : string :=
  match fuel with
  | O => ""
  | S fuel' =>
      if (n =? 0)%Z then ""
      else digitChar (n * 10 / d) ++ printFraction fuel' (n * 10 mod d) d
  end.

Definition numberToString (q : Q) : string :=
  let n := Z.abs (Qnum q) in
  let d := Z.pos (Qden q) in
  let whole := printZ (n / d) in
  let frac := printFraction 17 (n mod d) d in
  (if (Qnum q <? 0)%Z then "-" else "") ++
  whole ++ (if String.eqb frac "" then "" else "." ++ frac).

Definition quote : string := String (ascii_of_nat 34) EmptyString.

Fixpoint jsonStringify (v : Json) : string :=
  match v with
  | JNull => "null"
  | JBool true => "true"
  | JBool false => "false"
  | JNum q => numberToString q
  | JStr s => quote ++ s ++ quote
  | JArr items => "[" ++ String.concat "," (map jsonStringify items) ++ "]"
  | JObj props =>
      "{" ++ String.concat ","
               (map (fun kv => quote ++ fst kv ++ quote ++ ":" ++
                               jsonStringify (snd kv)) props) ++ "}"
  end.

(** A field of [width] decimal digits at the head of [s]. *)
Definition readField (width : nat) (s : string) : option (Z * string) :=
  match readDigits 10 (String.substring 0 width s) 0 0 with
  | (v, n, _) =>
      if Nat.eqb n width then Some (v, dropChars width s) else None
  end.

Definition skipChar (s : string) : string := dropChars 1 s.

(** Days from 1970-01-01 to the civil date [y-m-d]. *)
Definition daysFromCivil (y m d : Z) : Z :=
  let y' := (if m <=? 2 then y - 1 else y)%Z in
  let era := (y' / 400)%Z in
  let yoe := (y' - era * 400)%Z in
  let mp := ((m + 9) mod 12)%Z in
  let doy := ((153 * mp + 2) / 5 + d - 1)%Z in
  let doe := (yoe * 365 + yoe / 4 - yoe / 100 + doy)%Z in
  (era * 146097 + doe - 719468)%Z.

Definition dateGetTime (s : string) : num :=
  match readField 4 s with
  | Some (y, s) =>
  match readField 2 (skipChar s) with
  | Some (mo, s) =>
  match readField 2 (skipChar s) with
  | Some (d, s) =>
  match readField 2 (skipChar s) with
  | Some (h, s) =>
  match readField 2 (skipChar s) with
  | Some (mi, s) =>
  match readField 2 (skipChar s) with
  | Some (sec, _) =>
      of_Z ((((daysFromCivil y mo d * 24 + h) * 60 + mi) * 60 + sec) * 1000)
  | None => NaN end
  | None => NaN end
  | None => NaN end
  | None => NaN end
  | None => NaN end
  | None => NaN end.

Definition twoDigits (n : Z) : string :=
  if (n <? 10)%Z then "0" ++ printZ n else printZ n.

Definition toLocaleTimeString (ms : num) : string :=
  match ms with
  | Fin q =>
      let minutes := (Qfloor q / 60000)%Z in
      twoDigits ((minutes / 60) mod 24) ++ ":" ++ twoDigits (minutes mod 60)
  | _ => "Invalid Date"
  end.

(** The Taylor polynomial of the sine, [terms] terms from [x^k / k!]. *)
Fixpoint sineSeries (terms : nat) (k : Z) (term x : Q) : Q :=
  match terms with
  | O => 0
  | S terms' =>
      let next := Qred (- term * x * x / inject_Z ((k + 1) * (k + 2))) in
      Qred (term + sineSeries terms' (k + 2) next x)
  end.

Definition mathSin (x : Q) : Q := sineSeries 16 1 x x.

Definition mathRandom (k : nat) : Q :=
  inject_Z ((1103515245 * Z.of_nat k + 12345) mod 65536) / 65536.

Definition dateNow (k : nat) : Z := (1700000000000 + Z.of_nat k)%Z.

End Reference.

#[export] Instance reference : Js.Host := {|
  Js.parseFloatString := Reference.parseFloatString;
  Js.numberToString := Reference.numberToString;
  Js.jsonStringify := Reference.jsonStringify;
  Js.dateGetTime := Reference.dateGetTime;
  Js.toLocaleTimeString := Reference.toLocaleTimeString;
  Js.mathSin := Reference.mathSin;
  Js.mathRandom := Reference.mathRandom;
  Js.dateNow := Reference.dateNow
|}.


(* ===================================================================== *)
(** * Exceptions and sorting                                              *)
(* ===================================================================== *)

(** A computation that returns or throws. *)
Inductive result (A : Type) : Type :=
| Ok (a : A)
| Thrown.
Arguments Ok {A} a.
Arguments Thrown {A}.

#[export] Instance result_ret : MRet result := fun A a => Ok a.

#[export] Instance result_bind : MBind result := fun A B k r =>
  match r with
  | Ok a => k a
  | Thrown => Thrown
  end.

(** [try { r } catch { handler }]. *)
Definition try_catch {A : Type} (r : result A) (handler : A) : A :=
  match r with
  | Ok a => a
  | Thrown => handler
  end.

(** A stable sort: [after x y] says that [x] must come after [y]. *)
Section StableSort.
Context {A : Type} (after : A -> A -> bool).

Fixpoint insertSorted (x : A) (l : list A) : list A :=
  match l with
  | [] => [x]
  | y :: rest => if after x y then y :: insertSorted x rest else x :: l
  end.

Fixpoint stableSort (l : list A) : list A :=
  match l with
  | [] => []
  | x :: rest => insertSorted x (stableSort rest)
  end.

(** No element is marked to go after its successor. *)
Fixpoint ordered (l : list A) : Prop :=
  match l with
  | [] => True
  | x :: rest =>
      match rest with
      | [] => True
      | y :: _ => after x y = false /\ ordered rest
      end
  end.

End StableSort.

(* ===================================================================== *)
(** * The store: table [temperature_readings] behind the D1 binding       *)
(* ===================================================================== *)

(** The three statements the endpoint prepares, with the semantics SQLite
    gives them: a column that the schema does not have makes the statement
    fail; a column named by an INSERT takes the bound value and never its
    DEFAULT; a negative LIMIT is no limit, a negative OFFSET is zero and a
    LIMIT or OFFSET that is not an integer is an error.  Byte arrays
    (BLOBs) and the coercions of column affinity are not modelled. *)
Module D1.
Import Js.

Inductive Value : Type :=
| Null
| Num (n : num)
| Text (s : string).

(** [CREATE TABLE temperature_readings (...)]. *)
Record Row : Type := {
  id : Z;                (* INTEGER PRIMARY KEY AUTOINCREMENT *)
  temperature : Value;   (* REAL NOT NULL *)
  timestamp : Value;     (* DATETIME DEFAULT CURRENT_TIMESTAMP *)
  device_id : Value;     (* TEXT DEFAULT 'pico_xxx' *)
  metadata : Value       (* TEXT *)
}.

Definition table_name : string := "temperature_readings".

Definition schema : list string :=
  ["id"; "temperature"; "timestamp"; "device_id"; "metadata"].

Definition device_id_default : Value := Text "pico_xxx".

(** What [bind] does with [undefined]: the binding rejects it with a type
    error; a driver that stores NULL instead is covered as well. *)
Inductive UndefinedBinding : Type :=
| Rejected
| BoundAsNull.

Record Database : Type := {
  rows : list Row;
  sequence : Z;                  (* the largest id handed out so far *)
  current_timestamp : string;    (* CURRENT_TIMESTAMP *)
  on_undefined : UndefinedBinding
}.

Definition hasColumn (name : string) : bool :=
  existsb (String.eqb name) schema.

Definition column (name : string) (r : Row) : result Value :=
  if String.eqb name "id" then Ok (Num (of_Z (id r)))
  else if String.eqb name "temperature" then Ok (temperature r)
  else if String.eqb name "timestamp" then Ok (timestamp r)
  else if String.eqb name "device_id" then Ok (device_id r)
  else if String.eqb name "metadata" then Ok (metadata r)
  else Thrown.                   (* no such column *)

(** The value a bound argument is stored as. *)
Definition bindValue (policy : UndefinedBinding) (v : value) : result Value :=
  match v with
  | VUndefined =>
      match policy with
      | Rejected => Thrown
      | BoundAsNull => Ok Null
      end
  | VNum NaN => Ok Null
  | VNum n => Ok (Num n)
  | VJson JNull => Ok Null
  | VJson (JBool b) => Ok (Num (of_Z (if b then 1 else 0)))
  | VJson (JNum q) => Ok (Num (Fin q))
  | VJson (JStr s) => Ok (Text s)
  | VJson (JArr _) => Thrown
  | VJson (JObj _) => Thrown
  end.

Fixpoint bindAll (policy : UndefinedBinding) (args : list value)
  : result (list Value) :=
  match args with
  | [] => Ok []
  | a :: rest =>
      v ← bindValue policy a;
      vs ← bindAll policy rest;
      Ok (v :: vs)
  end.

Definition numEqb (a b : num) : bool :=
  match a, b with
  | Fin x, Fin y => Qeq_bool x y
  | PosInf, PosInf => true
  | NegInf, NegInf => true
  | _, _ => false
  end.

(** [a = b] in a WHERE clause; a comparison with NULL is not true. *)
Definition valueEqb (a b : Value) : bool :=
  match a, b with
  | Num x, Num y => numEqb x y
  | Text s, Text t => String.eqb s t
  | _, _ => false
  end.

Definition rank (v : Value) : Z :=
  match v with
  | Null => 0
  | Num _ => 1
  | Text _ => 2
  end.

(** The order of ORDER BY: NULL, then the numbers, then the texts. *)
Definition valueLtb (a b : Value) : bool :=
  match a, b with
  | Num x, Num y => ltb x y
  | Text s, Text t =>
      match String.compare s t with
      | Lt => true
      | _ => false
      end
  | _, _ => (rank a <? rank b)%Z
  end.

Definition asInteger (v : Value) : result Z :=
  match v with
  | Num (Fin q) =>
      if Qeq_bool (inject_Z (Qfloor q)) q then Ok (Qfloor q) else Thrown
  | _ => Thrown
  end.

(** [LIMIT limit OFFSET offset]. *)
Definition window (limit offset : Z) (l : list Row) : list Row :=
  let rest := skipn (Z.to_nat offset) l in
  if (limit <? 0)%Z then rest else firstn (Z.to_nat limit) rest.

(** [INSERT INTO into (columns) VALUES (?, ..., ?)]. *)
Record Insert : Type := {
  into : string;
  columns : list string
}.

(** [SELECT * FROM from [WHERE where_column = ?] ORDER BY order_by DESC
    LIMIT ? OFFSET ?]. *)
Record Select : Type := {
  from : string;
  where_column : option string;
  order_by_desc : string
}.

(** [SELECT COUNT( * ) as total FROM count_from [WHERE count_where = ?]]. *)
Record Count : Type := {
  count_from : string;
  count_where : option string
}.

Fixpoint assoc (name : string) (cols : list string) (vals : list Value)
  : option Value :=
  match cols, vals with
  | c :: cols', v :: vals' =>
      if String.eqb c name then Some v else assoc name cols' vals'
  | _, _ => None
  end.

(** A column takes the value bound to it when the statement names it and
    its DEFAULT otherwise. *)
Definition field (name : string) (cols : list string) (vals : list Value)
    (default : Value) : Value :=
  match assoc name cols vals with
  | Some v => v
  | None => default
  end.

(** [db.prepare(insert).bind(...args).run()]: the new table and
    [meta.last_row_id]. *)
Definition run (db : Database) (stmt : Insert) (args : list value)
  : result (Database * Z) :=
  if negb (String.eqb (into stmt) table_name) then Thrown
  else if negb (forallb hasColumn (columns stmt)) then Thrown
  else if negb (Nat.eqb (List.length args) (List.length (columns stmt)))
  then Thrown
  else
    vals ← bindAll (on_undefined db) args;
    new_id ← match assoc "id" (columns stmt) vals with
              | None | Some Null => Ok (sequence db + 1)%Z
              | Some v => asInteger v
              end;
    let row := {|
      id := new_id;
      temperature := field "temperature" (columns stmt) vals Null;
      timestamp :=
        field "timestamp" (columns stmt) vals (Text (current_timestamp db));
      device_id := field "device_id" (columns stmt) vals device_id_default;
      metadata := field "metadata" (columns stmt) vals Null
    |} in
    match temperature row with
    | Null => Thrown             (* NOT NULL constraint *)
    | _ =>
        if existsb (fun r => (id r =? new_id)%Z) (rows db) then Thrown
        else Ok ({| rows := rows db ++ [row];
                    sequence := Z.max (sequence db) new_id;
                    current_timestamp := current_timestamp db;
                    on_undefined := on_undefined db |}, new_id)
    end.

(** The rows a WHERE clause keeps and the arguments left for the rest of
    the statement. *)
Definition filterWhere (db : Database) (where_ : option string)
    (vals : list Value) : result (list Row * list Value) :=
  match where_ with
  | None => Ok (rows db, vals)
  | Some c =>
      if negb (hasColumn c) then Thrown
      else
        match vals with
        | [] => Thrown
        | p :: vals' =>
            Ok (List.filter (fun r => match column c r with
                                      | Ok v => valueEqb v p
                                      | Thrown => false
                                      end) (rows db), vals')
        end
  end.

Definition orderDesc (c : string) (l : list Row) : list Row :=
  stableSort (fun x y => match column c x, column c y with
                         | Ok vx, Ok vy => valueLtb vx vy
                         | _, _ => false
                         end) l.

(** [db.prepare(select).bind(...args).all()]: the [results]. *)
Definition all (db : Database) (stmt : Select) (args : list value)
  : result (list Row) :=
  if negb (String.eqb (from stmt) table_name) then Thrown
  else if negb (hasColumn (order_by_desc stmt)) then Thrown
  else
    vals ← bindAll (on_undefined db) args;
    '(kept, vals') ← filterWhere db (where_column stmt) vals;
    match vals' with
    | [l; o] =>
        limit ← asInteger l;
        offset ← asInteger o;
        Ok (window limit offset (orderDesc (order_by_desc stmt) kept))
    | _ => Thrown
    end.

(** [db.prepare(count).bind(...args).all()]: one row, its [total]. *)
Definition allCount (db : Database) (stmt : Count) (args : list value)
  : result (list Z) :=
  if negb (String.eqb (count_from stmt) table_name) then Thrown
  else
    vals ← bindAll (on_undefined db) args;
    '(kept, vals') ← filterWhere db (count_where stmt) vals;
    match vals' with
    | [] => Ok [Z.of_nat (List.length kept)]
    | _ => Thrown
    end.

End D1.

(* ===================================================================== *)
(** * The endpoint: [POST] and [GET] of [/lab/api]                        *)
(* ===================================================================== *)

Module Api.
Import Js D1.

Record Meta : Type := {
  total : Z;
  limit : num;
  offset : num;
  hasMore : bool
}.

Inductive Body : Type :=
| Failure (error : string)                (* { error, ok: false } *)
| Saved (id : Z) (message : string)       (* { ok: true, id, message } *)
| Listing (data : list Row) (meta : Meta) (* { ok: true, data, meta } *).

Record Response : Type := {
  body : Body;
  status : Z
}.

(** [json(body)] answers 200 and [json(body, { status })] answers [status]. *)
Definition json (b : Body) (init : option Z) : Response :=
  {| body := b;
     status := match init with
               | Some s => s
               | None => 200%Z
               end |}.

Definition ok (r : Response) : bool :=
  match body r with
  | Failure _ => false
  | _ => true
  end.

(** [body.hasOwnProperty(key)] for a key that is neither [length] nor an
    index: reading a property of [null] throws, and so does calling an own
    property named [hasOwnProperty], which a JSON value never makes
    callable. *)
Definition hasOwnProperty (body : Json) (key : string) : result bool :=
  match body with
  | JNull => Thrown
  | JObj props =>
      match lookupProp "hasOwnProperty" props with
      | Some _ => Thrown
      | None =>
          Ok match lookupProp key props with
             | Some _ => true
             | None => false
             end
      end
  | _ => Ok false
  end.

Definition ofProp (v : option Json) : value :=
  match v with
  | None => VUndefined
  | Some j => VJson j
  end.

Definition insertReading : Insert :=
  {| into := "temperature_readings";
     columns := ["temperature"; "device_id"; "timestamp"; "metadata"] |}.

Section WithHost.
Context `{Host}.

(** The [try] block of [POST]; [request] is [None] when [request.json()]
    rejects and [platform] is [None] when [platform?.env?.DB] is missing.
    The result is the response and the store as the handler leaves it. *)
Definition POST_try (request : option Json) (platform : option Database)
  : result (Response * option Database) :=
  body ← match request with
          | Some b => Ok b
          | None => Thrown
          end;
  has ← hasOwnProperty body "temperature";
  if negb has then
    Ok (json (Failure "temperature field is required") (Some 400%Z), platform)
  else
    let temperature := parseFloat (getProp body "temperature") in
    if isNaN temperature || ltb temperature (of_Z (-50))
       || gtb temperature (of_Z 100)
    then
      Ok (json (Failure "temperature must be a number between -50 and 100")
               (Some 400%Z), platform)
    else
      match platform with
      | None => Ok (json (Failure "Database not available") (Some 500%Z),
                    platform)
      | Some db =>
          '(db', last_row_id) ←
            run db insertReading
              [ VNum temperature;
                ofProp (getProp body "device_id");
                ofProp (getProp body "timestamp");
                if truthy (getProp body "metadata")
                then VJson (JStr (jsonStringify
                                    (default JNull (getProp body "metadata"))))
                else VJson JNull ];
          Ok (json (Saved last_row_id "Temperature reading saved successfully")
                   None, Some db')
      end.

Definition POST (request : option Json) (platform : option Database)
  : Response * option Database :=
  try_catch (POST_try request platform)
    (json (Failure "Failed to save temperature reading") (Some 500%Z),
     platform).

End WithHost.

(** [url.searchParams.get(name)]: the first value of [name], or [null]. *)
Fixpoint searchParamsGet (name : string) (params : list (string * string))
  : option string :=
  match params with
  | [] => None
  | (k, v) :: rest =>
      if String.eqb k name then Some v else searchParamsGet name rest
  end.

(** [value || fallback] on a string or [null]. *)
Definition orElse (value : option string) (fallback : string) : string :=
  match value with
  | Some s => if String.eqb s "" then fallback else s
  | None => fallback
  end.

(** The query of [GET] and its parameters; [location] filters when it is a
    non-empty string. *)
Definition listQuery (location : option string) : Select :=
  {| from := "temperature_readings";
     where_column := match location with
                     | Some l => if String.eqb l "" then None
                                 else Some "location"
                     | None => None
                     end;
     order_by_desc := "timestamp" |}.

Definition countQuery (location : option string) : Count :=
  {| count_from := "temperature_readings";
     count_where := match location with
                    | Some l => if String.eqb l "" then None
                                else Some "location"
                    | None => None
                    end |}.

Definition locationParams (location : option string) : list value :=
  match location with
  | Some l => if String.eqb l "" then [] else [VJson (JStr l)]
  | None => []
  end.

Definition requestedLimit (searchParams : list (string * string)) : num :=
  min (parseInt (orElse (searchParamsGet "limit" searchParams) "100"))
      (of_Z 1000).

Definition requestedOffset (searchParams : list (string * string)) : num :=
  parseInt (orElse (searchParamsGet "offset" searchParams) "0").

(** The [try] block of [GET]. *)
Definition GET_try (searchParams : list (string * string))
    (platform : option Database) : result Response :=
  match platform with
  | None => Ok (json (Failure "Database not available") (Some 500%Z))
  | Some db =>
      let limit := requestedLimit searchParams in
      let offset := requestedOffset searchParams in
      let location := searchParamsGet "location" searchParams in
      results ← all db (listQuery location)
                  (locationParams location ++ [VNum limit; VNum offset]);
      countResults ← allCount db (countQuery location)
                       (locationParams location);
      let total := match countResults with
                   | t :: _ => t
                   | [] => 0%Z
                   end in
      Ok (json (Listing results
                  {| total := total;
                     limit := limit;
                     offset := offset;
                     hasMore := ltb (add offset limit) (of_Z total) |})
               None)
  end.

Definition GET (searchParams : list (string * string))
    (platform : option Database) : Response :=
  try_catch (GET_try searchParams platform)
    (json (Failure "Failed to fetch temperature readings") (Some 500%Z)).

End Api.

(* ===================================================================== *)
(** * The page: client data layer                                         *)
(* ===================================================================== *)

(** A reading as the list endpoint returns it ([PicoData & {id}]). *)
Module PicoData.
Record t : Type := {
  id : Z;
  temperature : Q;
  timestamp : string;
  device_id : string
}.
End PicoData.

Module Page.
Import Js.
Local Open Scope Q_scope.

(** An element of [temperatureData].  The fallback generator leaves [id],
    [device_id] and [dbTimestamp] undefined. *)
Record Point : Type := {
  time : Z;
  temperature : Q;
  timestamp : string;
  id : option Z;
  device_id : option string;
  dbTimestamp : option string
}.

(** [result.data] of the parsed response. *)
Inductive Data : Type :=
| Falsy                                  (* missing, null, 0, an empty string *)
| NotAnArray                             (* truthy, without a [sort] method *)
| Readings (readings : list PicoData.t).

(** What [fetch] and [response.json()] produce. *)
Inductive Fetched : Type :=
| Rejects                                (* transport failure or invalid JSON *)
| ParsedNull                             (* the body is the JSON [null] *)
| Parsed (ok : bool) (data : Data).

(** [Math.round]. *)
Definition round (x : Q) : Z := Qfloor (x + (1 # 2)).

Section WithHost.
Context `{Host}.

(** The comparator given to [sort]. *)
Definition byTimestamp (a b : PicoData.t) : num :=
  sub (dateGetTime (PicoData.timestamp a)) (dateGetTime (PicoData.timestamp b)).

(** [result.data.sort(byTimestamp)]: [a] goes after [b] when the
    comparator is positive; NaN counts as zero.  The sort of the language
    is stable.  When every timestamp is a date the comparator is
    consistent and every stable sort gives this result; with an invalid
    date the language leaves the order to the engine, and the model keeps
    that of the insertion sort. *)
Definition sortedData (data : list PicoData.t) : list PicoData.t :=
  stableSort (fun a b => gtb (byTimestamp a b) (of_Z 0)) data.

Definition toPoint (index : nat) (reading : PicoData.t) : Point :=
  {| time := Z.of_nat index;
     temperature := PicoData.temperature reading;
     timestamp := toLocaleTimeString (dateGetTime (PicoData.timestamp reading));
     id := Some (PicoData.id reading);
     device_id := Some (PicoData.device_id reading);
     dbTimestamp := Some (PicoData.timestamp reading) |}.

(** The success branch: sort, then number the readings. *)
Definition transform (data : list PicoData.t) : list Point :=
  imap toPoint (sortedData data).

(** The loop of [generateTemperatureData], [count] iterations from [i];
    [draw] and [clock] count the calls made to [Math.random] and
    [Date.now] so far. *)
Fixpoint generateFrom (count i : nat) (baseTemp : Q) (draw clock : nat)
  : list Point :=
  match count with
  | O => []
  | S count' =>
      let variation :=
        mathSin (inject_Z (Z.of_nat i) / 10) * 8
        + (mathRandom draw - (1 # 2)) * 4 in
      let temp := Qmax 20 (Qmin 50 (baseTemp + variation)) in
      {| time := Z.of_nat i;
         temperature := inject_Z (round (temp * 10)) / 10;
         timestamp :=
           toLocaleTimeString
             (of_Z (dateNow clock + Z.of_nat i * 60000));
         id := None;
         device_id := None;
         dbTimestamp := None |}
      :: generateFrom count' (S i)
           (baseTemp + (mathRandom (S draw) - (1 # 2)) * (1 # 2))
           (S (S draw)) (S clock)
  end.

Definition generateTemperatureData (draw clock : nat) : list Point :=
  generateFrom 60 0 35 draw clock.

(** The [try] block of [fetchTemperatureData]. *)
Definition fetchTemperatureData_try (fetched : Fetched) (draw clock : nat)
  : result (list Point) :=
  match fetched with
  | Rejects => Thrown
  | ParsedNull => Thrown
  | Parsed ok data =>
      match ok, data with
      | true, Readings readings => Ok (transform readings)
      | true, NotAnArray => Thrown
      | _, _ => Ok (generateTemperatureData draw clock)
      end
  end.

Definition fetchTemperatureData (fetched : Fetched) (draw clock : nat)
  : list Point :=
  try_catch (fetchTemperatureData_try fetched draw clock)
    (generateTemperatureData draw clock).

(** [JSON.stringify] of a number, read back by the server. *)
Definition numberToJson (n : num) : Json :=
  match n with
  | Fin q => JNum q
  | _ => JNull
  end.

(** The body that [addTemperatureReading(temperature, location)] posts;
    [location] defaults to ['lab']. *)
Definition addTemperatureReading_body (temperature : string)
    (location : option string) : Json :=
  JObj [ ("temperature", numberToJson (parseFloatString temperature));
         ("location", JStr (default "lab" location));
         ("metadata", JObj [("source", JStr "manual_entry")]) ].

End WithHost.

(* ===================================================================== *)
(** * The page: graph renderer                                            *)
(* ===================================================================== *)

Definition width : Q := 800.
Definition height : Q := 400.

Module padding.
Definition top : Q := 20.
Definition right : Q := 40.
Definition bottom : Q := 60.
Definition left : Q := 60.
End padding.

Definition graphWidth : Q := width - padding.left - padding.right.
Definition graphHeight : Q := height - padding.top - padding.bottom.

Definition lengthOf (temperatureData : list Point) : Q :=
  inject_Z (Z.of_nat (List.length temperatureData)).

Definition xScale (temperatureData : list Point) (time : Q) : Q :=
  match temperatureData with
  | [] => 0
  | _ :: _ =>
      let maxTime := Qmax (lengthOf temperatureData - 1) 59 in
      graphWidth - (time / maxTime) * graphWidth
  end.

Definition yScale (temp : Q) : Q :=
  graphHeight - ((temp - 20) / 30) * graphHeight.

Section WithHost.
Context `{Host}.

(** [generatePath(data)]; [xScale] reads the page's [temperatureData]. *)
Definition generatePath (temperatureData data : list Point) : string :=
  String.concat " "
    (imap (fun i point =>
             let x := xScale temperatureData (inject_Z (time point)) in
             let y := yScale (temperature point) in
             (match i with
              | O => "M "
              | S _ => "L "
              end) ++ numberToString x ++ " " ++ numberToString y)
          data).

End WithHost.

(** [hoveredPoint]: the point with its screen position. *)
Record Hovered : Type := {
  point : Point;
  x : Q;
  y : Q
}.

(** [getBoundingClientRect()] and the mouse event. *)
Record Rect : Type := { rect_left : Q; rect_top : Q }.
Record MouseEvent : Type := { clientX : Q; clientY : Q }.

(** One turn of the [forEach] that looks for the closest point. *)
Definition closer (temperatureData : list Point) (mouseX : Q)
    (acc : option Hovered * num) (p : Point) : option Hovered * num :=
  let '(closestPoint, closestDistance) := acc in
  let pointX := xScale temperatureData (inject_Z (time p)) in
  let distance := Qabs (pointX - mouseX) in
  if ltb (Fin distance) closestDistance
  then (Some {| point := p; x := pointX; y := yScale (temperature p) |},
        Fin distance)
  else (closestPoint, closestDistance).

Definition closest (temperatureData : list Point) (mouseX : Q)
  : option Hovered * num :=
  fold_left (closer temperatureData mouseX) temperatureData (None, PosInf).

(** [handleMouseMove(event)]: the new [hoveredPoint]. *)
Definition handleMouseMove (temperatureData : list Point)
    (graphContainer : option Rect) (event : MouseEvent)
    (hoveredPoint : option Hovered) : option Hovered :=
  match graphContainer with
  | None => hoveredPoint
  | Some rect =>
      let mouseX := clientX event - rect_left rect - padding.left in
      let mouseY := clientY event - rect_top rect - padding.top in
      if Qle_bool 0 mouseX && Qle_bool mouseX graphWidth
         && Qle_bool 0 mouseY && Qle_bool mouseY graphHeight
      then
        match closest temperatureData mouseX with
        | (Some closestPoint, closestDistance) =>
            if ltb closestDistance (of_Z 20) then Some closestPoint else None
        | (None, _) => None
        end
      else None
  end.

(* ===================================================================== *)
(** * The page: refresh scheduler                                         *)
(* ===================================================================== *)

(** The timers of the window: the handle [setInterval] returns next and
    the delay of every interval that is still armed. *)
Record Timers : Type := {
  next_handle : Z;
  armed : gmap Z Z
}.

Definition setInterval (delay : Z) (t : Timers) : Z * Timers :=
  (next_handle t,
   {| next_handle := next_handle t + 1;
      armed := <[next_handle t := delay]> (armed t) |}).

Definition clearInterval (handle : Z) (t : Timers) : Timers :=
  {| next_handle := next_handle t;
     armed := delete handle (armed t) |}.

Record Scheduler : Type := {
  isAutoRefresh : bool;
  refreshInterval : Z;           (* seconds *)
  refreshTimer : option Z;       (* [null] or a handle *)
  timers : Timers
}.

(** The page as it mounts. *)
Definition initial : Scheduler :=
  {| isAutoRefresh := true;
     refreshInterval := 30;
     refreshTimer := None;
     timers := {| next_handle := 1; armed := ∅ |} |}.

(** [if (refreshTimer)]: a handle other than 0. *)
Definition isSet (refreshTimer : option Z) : bool :=
  match refreshTimer with
  | Some h => negb (h =? 0)%Z
  | None => false
  end.

Definition clearRefreshTimer (s : Scheduler) : Timers :=
  match refreshTimer s with
  | Some h => if isSet (refreshTimer s) then clearInterval h (timers s)
              else timers s
  | None => timers s
  end.

Definition setupAutoRefresh (s : Scheduler) : Scheduler :=
  let cleared := clearRefreshTimer s in
  if isAutoRefresh s && (0 <? refreshInterval s)%Z then
    let '(handle, t) := setInterval (refreshInterval s * 1000) cleared in
    {| isAutoRefresh := isAutoRefresh s;
       refreshInterval := refreshInterval s;
       refreshTimer := Some handle;
       timers := t |}
  else
    {| isAutoRefresh := isAutoRefresh s;
       refreshInterval := refreshInterval s;
       refreshTimer := refreshTimer s;
       timers := cleared |}.

(** [onDestroy]. *)
Definition onDestroy (s : Scheduler) : Scheduler :=
  {| isAutoRefresh := isAutoRefresh s;
     refreshInterval := refreshInterval s;
     refreshTimer := refreshTimer s;
     timers := clearRefreshTimer s |}.

(** What happens to the scheduler: the checkbox and the select change a
    setting, then call [setupAutoRefresh]; the mount and the effect call it
    too; the page is destroyed. *)
Inductive step : Scheduler -> Scheduler -> Prop :=
| step_checked s checked :
    step s {| isAutoRefresh := checked;
              refreshInterval := refreshInterval s;
              refreshTimer := refreshTimer s;
              timers := timers s |}
| step_selected s seconds :
    step s {| isAutoRefresh := isAutoRefresh s;
              refreshInterval := seconds;
              refreshTimer := refreshTimer s;
              timers := timers s |}
| step_setup s : step s (setupAutoRefresh s)
| step_destroy s : step s (onDestroy s).

Inductive reachable : Scheduler -> Prop :=
| reachable_initial : reachable initial
| reachable_step s s' : reachable s -> step s s' -> reachable s'.

(* ===================================================================== *)
(** * The page: state, buttons and summary                                *)
(* ===================================================================== *)

(** The reactive state that the data layer writes. *)
Record View : Type := {
  temperatureData : list Point;
  isLoading : bool;
  lastFetchTime : option Z       (* [null] or the time of [new Date()] *)
}.

(** What [addTemperatureReading] returns: [{ success: true, id }] or
    [{ success: false, error }]; a field the answer does not have is
    undefined. *)
Inductive AddResult : Type :=
| Added (id : option Z)
| NotAdded (error : option string).

Definition resultId (r : Api.Response) : option Z :=
  match Api.body r with
  | Api.Saved i _ => Some i
  | _ => None
  end.

Definition resultError (r : Api.Response) : option string :=
  match Api.body r with
  | Api.Failure e => Some e
  | _ => None
  end.

Section WithHost.
Context `{Host}.

(** [refreshData()]: nothing when auto-refresh is off; [fetched] is the
    outcome of the fetch and [now] the time of [new Date()]. *)
Definition refreshData (autoRefresh : bool) (fetched : Fetched)
    (draw clock : nat) (now : Z) (v : View) : View :=
  if negb autoRefresh then v
  else
    {| temperatureData := fetchTemperatureData fetched draw clock;
       isLoading := isLoading v;
       lastFetchTime := Some now |}.

(** The button "Refresh Now". *)
Definition refreshNow (autoRefresh : bool) (fetched : Fetched)
    (draw clock : nat) (now : Z) (v : View) : View :=
  let loading := {| temperatureData := temperatureData v;
                    isLoading := true;
                    lastFetchTime := lastFetchTime v |} in
  let refreshed := refreshData autoRefresh fetched draw clock now loading in
  {| temperatureData := temperatureData refreshed;
     isLoading := false;
     lastFetchTime := lastFetchTime refreshed |}.

(** The button "Use Demo Data". *)
Definition useDemoData (draw clock : nat) (v : View) : View :=
  {| temperatureData := generateTemperatureData draw clock;
     isLoading := isLoading v;
     lastFetchTime := lastFetchTime v |}.

(** [addTemperatureReading(temperature, location)].  [online] is false
    when the POST does not reach the endpoint ([fetch] rejects); the
    endpoint runs [POST] on [platform]; [fetched] is the outcome of the
    fetch that refreshes the data.  The result, the new state of the page
    and the store as the endpoint leaves it. *)
Definition addTemperatureReading (online : bool) (temperature : string)
    (location : option string) (platform : option D1.Database)
    (fetched : Fetched) (draw clock : nat) (now : Z) (v : View)
  : AddResult * View * option D1.Database :=
  if negb online then (NotAdded (Some "Network error"), v, platform)
  else
    let '(result, platform') :=
      Api.POST (Some (addTemperatureReading_body temperature location))
               platform in
    if Api.ok result then
      (Added (resultId result),
       {| temperatureData := fetchTemperatureData fetched draw clock;
          isLoading := isLoading v;
          lastFetchTime := Some now |},
       platform')
    else (NotAdded (resultError result), v, platform').

End WithHost.













End Page.

(* ===================================================================== *)
(** * Vocabulary of the statements                                        *)
(* ===================================================================== *)

Module Spec.
Import Js D1 Api Page.
Local Open Scope Q_scope.

(** A number outside the interval [-50, 100]. *)
Definition outsideRange (t : num) : Prop :=
  match t with
  | Fin q => q < -50 \/ 100 < q
  | PosInf | NegInf => True
  | NaN => False
  end.



(** The rows that the handler added to the table. *)
Definition stored (before after : option Database) (r : Row) : Prop :=
  match before, after with
  | Some db, Some db' => In r (rows db') /\ ~ In r (rows db)
  | _, _ => False
  end.

(** The query string has no parameter [name], or an empty one. *)
Definition missing (name : string) (searchParams : list (string * string))
  : Prop :=
  searchParamsGet name searchParams = None
  \/ searchParamsGet name searchParams = Some "".

(** The fetch failed: transport or parse failure, or a response whose
    [ok] flag is not set. *)
Definition failed (f : Fetched) : Prop :=
  match f with
  | Rejects | ParsedNull => True
  | Parsed ok _ => ok = false
  end.

(** The armed intervals are at most the one [refreshTimer] holds, and
    handles are positive and below the next one. *)
Definition consistent (s : Scheduler) : Prop :=
  (0 < next_handle (timers s))%Z
  /\ (forall h d, armed (timers s) !! h = Some d -> refreshTimer s = Some h)
  /\ (forall h, refreshTimer s = Some h ->
                (0 < h < next_handle (timers s))%Z).



(** Horizontal distance from the pointer to a point of the graph. *)
Definition distance (temperatureData : list Point) (mouseX : Q) (p : Point)
  : Q :=
  Qabs (xScale temperatureData (inject_Z (time p)) - mouseX).

(** The pointer position relative to the graph area. *)
Definition pointerX (rect : Rect) (event : MouseEvent) : Q :=
  clientX event - rect_left rect - padding.left.

Definition pointerY (rect : Rect) (event : MouseEvent) : Q :=
  clientY event - rect_top rect - padding.top.

Definition insideGraph (rect : Rect) (event : MouseEvent) : Prop :=
  0 <= pointerX rect event <= graphWidth
  /\ 0 <= pointerY rect event <= graphHeight.

(** No row has an id above the last one handed out. *)
Definition idsIssued (db : Database) : Prop :=
  forall r, In r (rows db) -> (D1.id r <= sequence db)%Z.

(** The sequence index of every point is its position. *)
Definition indexed (data : list Point) : Prop :=
  forall (i : nat) (p : Point), data !! i = Some p -> time p = Z.of_nat i.

(** The timestamp of a reading as a date, when it is one. *)
Definition datedAt `{Host} (r : PicoData.t) (ms : Q) : Prop :=
  dateGetTime (PicoData.timestamp r) = Fin ms.

(** The readings of a list response; none for a failure. *)
Definition listed (r : Response) : list Row :=
  match body r with
  | Listing data _ => data
  | _ => []
  end.

(** The reading a point was made from, read off its fields. *)
Definition readingOf (p : Point) : PicoData.t :=
  {| PicoData.id := default 0%Z (id p);
     PicoData.temperature := temperature p;
     PicoData.timestamp := default "" (dbTimestamp p);
     PicoData.device_id := default "" (device_id p) |}.

(** Sample data for the executable checks. *)
Definition reading (i : Z) (t : Q) (ts : string) : PicoData.t :=
  {| PicoData.id := i; PicoData.temperature := t;
     PicoData.timestamp := ts; PicoData.device_id := "lab" |}.

Definition sampleReadings : list PicoData.t :=
  [ reading 3 25 "2024-01-01 12:20:00";
    reading 1 (47 # 2) "2024-01-01 12:00:00";
    reading 2 24 "2024-01-01 12:10:00" ].

Definition samplePoints : list Point := transform sampleReadings.

Definition row (i : Z) (t : Q) (ts : string) : Row :=
  {| D1.id := i; D1.temperature := Num (Fin t); D1.timestamp := Text ts;
     D1.device_id := Text "lab"; D1.metadata := Null |}.

Definition sampleDatabase (policy : UndefinedBinding) : Database :=
  {| rows := [ row 1 (47 # 2) "2024-01-01 12:00:00";
               row 2 24 "2024-01-01 12:10:00";
               row 3 25 "2024-01-01 12:20:00" ];
     sequence := 3;
     current_timestamp := "2024-01-01 13:00:00";
     on_undefined := policy |}.

End Spec.

(* ===================================================================== *)
(** * Numbers                                                             *)
(* ===================================================================== *)

Import Js D1 Api Page Spec.

Section NumberFacts.
Local Open Scope Q_scope.

Lemma Qltb_lt (x y : Q) : Qltb x y = true <-> x < y.
Proof.
  unfold Qltb. rewrite negb_true_iff.
  split; intros Hxy.
  - apply Qnot_le_lt. intros Hle. apply Qle_bool_iff in Hle. congruence.
  - destruct (Qle_bool y x) eqn:E; [|reflexivity].
    apply Qle_bool_iff in E. exfalso. exact (Qlt_not_le _ _ Hxy E).
Qed.

Lemma Qltb_ge (x y : Q) : Qltb x y = false <-> y <= x.
Proof.
  unfold Qltb. rewrite negb_false_iff. apply Qle_bool_iff.
Qed.

Lemma ltb_of_Z (a b : Z) : ltb (of_Z a) (of_Z b) = true <-> (a < b)%Z.
Proof.
  unfold of_Z. simpl. rewrite Qltb_lt, <- Zlt_Qlt. reflexivity.
Qed.

Lemma add_of_Z (a b : Z) : add (of_Z a) (of_Z b) = Fin (inject_Z a + inject_Z b).
Proof. reflexivity. Qed.


(** The guard of [POST] is exactly "not a number or outside the range". *)
Lemma guard_spec (t : num) :
  isNaN t || ltb t (of_Z (-50)) || gtb t (of_Z 100) = true
  <-> t = NaN \/ outsideRange t.
Proof.
  destruct t as [| | |q]; simpl.
  - split; [intros _; now left | reflexivity].
  - split; [intros _; now right | reflexivity].
  - split; [intros _; now right | reflexivity].
  - rewrite orb_true_iff, !Qltb_lt.
    change (inject_Z (-50)) with (-50). change (inject_Z 100) with 100.
    split; [intros Hq; right; exact Hq
           | intros [Hq|Hq]; [discriminate | exact Hq]].
Qed.

End NumberFacts.

(* ===================================================================== *)
(** * Ingestion: validation of the temperature                            *)
(* ===================================================================== *)

Section Ingestion.
Context `{Host}.







End Ingestion.



(* ===================================================================== *)
(** * Listing: pagination                                                 *)
(* ===================================================================== *)

Section Listing.

Lemma ltb_add_of_Z (a b c : Z) :
  ltb (add (of_Z a) (of_Z b)) (of_Z c) = (a + b <? c)%Z.
Proof.
  rewrite add_of_Z. unfold of_Z. simpl.
  destruct (a + b <? c)%Z eqn:E.
  - apply Qltb_lt. apply Z.ltb_lt in E.
    rewrite <- inject_Z_plus, <- Zlt_Qlt. exact E.
  - apply Qltb_ge. apply Z.ltb_ge in E.
    rewrite <- inject_Z_plus, <- Zle_Qle. exact E.
Qed.

Lemma asInteger_of_Z (z : Z) : asInteger (Num (of_Z z)) = Ok z.
Proof.
  unfold asInteger, of_Z. rewrite Qfloor_Z, Qeq_bool_refl. reflexivity.
Qed.




Lemma all_unfiltered (db : Database) (L O : Z) :
  all db {| from := "temperature_readings"; where_column := None;
            order_by_desc := "timestamp" |}
      ([] ++ [VNum (of_Z L); VNum (of_Z O)])
  = Ok (window L O (orderDesc "timestamp" (rows db))).
Proof.
  unfold all. cbn [from order_by_desc where_column app].
  change (negb (String.eqb "temperature_readings" table_name)) with false.
  change (negb (hasColumn "timestamp")) with false.
  cbn [bindAll bindValue of_Z mbind result_bind filterWhere].
  change (Num (Fin (inject_Z L))) with (Num (of_Z L)).
  change (Num (Fin (inject_Z O))) with (Num (of_Z O)).
  rewrite !asInteger_of_Z. reflexivity.
Qed.

Lemma allCount_unfiltered (db : Database) :
  allCount db {| count_from := "temperature_readings"; count_where := None |}
           []
  = Ok [Z.of_nat (List.length (rows db))].
Proof. reflexivity. Qed.


End Listing.



(* ===================================================================== *)
(** * Listing: the location filter                                        *)
(* ===================================================================== *)

Section LocationFilter.



End LocationFilter.



(* ===================================================================== *)
(** * Ingestion: the reading added from the page                          *)
(* ===================================================================== *)

Section AddReading.
Context `{Host}.

(** An INSERT whose [device_id] and [timestamp] arguments are [undefined]
    is refused, or stores NULL in both columns. *)
Lemma run_undefined_device (db db' : Database) (t m : value) (new_id : Z) :
  run db insertReading [t; VUndefined; VUndefined; m] = Ok (db', new_id) ->
  on_undefined db = BoundAsNull
  /\ exists r, rows db' = (rows db ++ [r])%list /\ D1.device_id r = Null.
Proof.
  unfold run. cbn [into columns insertReading].
  change (negb (String.eqb "temperature_readings" table_name)) with false.
  change (negb (forallb hasColumn
                  ["temperature"; "device_id"; "timestamp"; "metadata"]))
    with false.
  cbn [List.length Nat.eqb negb bindAll bindValue].
  destruct (on_undefined db); cbn [mbind result_bind].
  - destruct (bindValue Rejected t); discriminate.
  - destruct (bindValue BoundAsNull t) as [tv|]; [|discriminate].
    destruct (bindValue BoundAsNull m) as [mv|]; [|discriminate].
    cbn [mbind result_bind].
    change (assoc "id" ["temperature"; "device_id"; "timestamp"; "metadata"]
              [tv; Null; Null; mv]) with (@None Value).
    cbn [mbind result_bind D1.temperature].
    change (field "device_id"
              ["temperature"; "device_id"; "timestamp"; "metadata"]
              [tv; Null; Null; mv] device_id_default) with Null.
    destruct (field "temperature" _ _ _); [discriminate|..];
      destruct (existsb _ (rows db)); try discriminate;
      intros E; injection E as <- <-; (split; [reflexivity|]);
      eexists; split; reflexivity.
Qed.



End AddReading.



(* ===================================================================== *)
(** * The stable sort                                                     *)
(* ===================================================================== *)

Section StableSortFacts.
Context {A : Type} (after : A -> A -> bool).
Hypothesis after_asym : forall x y, after x y = true -> after y x = false.


Lemma insertSorted_In (x b : A) (l : list A) :
  In b (insertSorted after x l) <-> b = x \/ In b l.
Proof.
  induction l as [|y l IH]; simpl.
  - intuition congruence.
  - destruct (after x y); simpl; rewrite ?IH; intuition congruence.
Qed.

Lemma stableSort_In (b : A) (l : list A) :
  In b (stableSort after l) <-> In b l.
Proof.
  induction l as [|x l IH]; simpl; [tauto|].
  rewrite insertSorted_In, IH. intuition congruence.
Qed.

Lemma insertSorted_Permutation (x : A) (l : list A) :
  Permutation (insertSorted after x l) (x :: l).
Proof.
  induction l as [|y l IH]; simpl; [reflexivity|].
  destruct (after x y); [|reflexivity].
  rewrite IH. apply perm_swap.
Qed.

Lemma stableSort_Permutation (l : list A) :
  Permutation (stableSort after l) l.
Proof.
  induction l as [|x l IH]; simpl; [reflexivity|].
  rewrite insertSorted_Permutation. now constructor.
Qed.

Lemma insertSorted_ordered (x : A) (l : list A) :
  ordered after l -> ordered after (insertSorted after x l).
Proof.
  induction l as [|y l IH]; intros Hl; [exact I|].
  cbn [insertSorted]. destruct (after x y) eqn:Hxy.
  - assert (Hrest : ordered after l) by (destruct l; [exact I | apply Hl]).
    specialize (IH Hrest).
    destruct l as [|z l]; cbn [insertSorted] in *.
    + split; [now apply after_asym | exact I].
    + destruct (after x z) eqn:Hxz.
      * split; [apply Hl | exact IH].
      * split; [now apply after_asym | exact IH].
  - split; [exact Hxy | exact Hl].
Qed.

Lemma stableSort_ordered (l : list A) : ordered after (stableSort after l).
Proof.
  induction l as [|x l IH]; [exact I|].
  simpl. now apply insertSorted_ordered.
Qed.






End StableSortFacts.

(* ===================================================================== *)
(** * Client data layer                                                   *)
(* ===================================================================== *)

Section DataLayer.
Context `{Host}.
Local Open Scope Q_scope.

Lemma byTimestamp_asym (a b : PicoData.t) :
  gtb (byTimestamp a b) (of_Z 0) = true ->
  gtb (byTimestamp b a) (of_Z 0) = false.
Proof.
  unfold byTimestamp, gtb, sub.
  destruct (dateGetTime (PicoData.timestamp a)) as [| | |x],
           (dateGetTime (PicoData.timestamp b)) as [| | |y];
    simpl; try discriminate; try reflexivity.
  rewrite Qltb_lt, Qltb_ge. change (inject_Z 0) with 0. intros Hxy. lra.
Qed.



Lemma generateFrom_length (count i : nat) (baseTemp : Q) (draw clock : nat) :
  List.length (generateFrom count i baseTemp draw clock) = count.
Proof.
  revert i baseTemp draw clock.
  induction count as [|count IH]; intros; simpl; [reflexivity|].
  now rewrite IH.
Qed.

(** The clamp survives the rounding to one decimal. *)
Lemma clamped_rounded (v : Q) :
  20 <= inject_Z (round (Qmax 20 (Qmin 50 v) * 10)) / 10 <= 50.
Proof.
  set (t := Qmax 20 (Qmin 50 v)).
  assert (Hlo : 20 <= t) by apply Q.le_max_l.
  assert (Hhi : t <= 50).
  { apply Q.max_lub; [discriminate | apply Q.le_min_l]. }
  unfold round.
  assert (H200 : (200 <= Qfloor (t * 10 + (1 # 2)))%Z).
  { change 200%Z with (Qfloor 200). apply Qfloor_resp_le. lra. }
  assert (H500 : (Qfloor (t * 10 + (1 # 2)) <= 500)%Z).
  { change 500%Z with (Qfloor (1001 # 2)). apply Qfloor_resp_le. lra. }
  rewrite Zle_Qle in H200, H500.
  split.
  - apply Qle_shift_div_l; [reflexivity|]. exact H200.
  - apply Qle_shift_div_r; [reflexivity|]. exact H500.
Qed.

Lemma generateFrom_clamped (count i : nat) (baseTemp : Q) (draw clock : nat) :
  Forall (fun p => 20 <= temperature p <= 50)
         (generateFrom count i baseTemp draw clock).
Proof.
  revert i baseTemp draw clock.
  induction count as [|count IH]; intros; simpl; constructor.
  - apply clamped_rounded.
  - apply IH.
Qed.


(** A successful answer without readings is displayed as it is. *)
Remark fetch_success_without_readings (draw clock : nat) :
  fetchTemperatureData (Parsed true (Readings [])) draw clock = [].
Proof. reflexivity. Qed.

End DataLayer.



(* ===================================================================== *)
(** * Graph renderer                                                      *)
(* ===================================================================== *)

Section Renderer.
Local Open Scope Q_scope.

Lemma graphWidth_value : graphWidth == 700.
Proof. reflexivity. Qed.

Lemma maxTime_bounds (n : Q) : 59 <= Qmax (n - 1) 59.
Proof. apply Q.le_max_r. Qed.

Lemma xScale_cons (p : Point) (rest : list Point) (time : Q) :
  xScale (p :: rest) time
  = graphWidth - time / Qmax (lengthOf (p :: rest) - 1) 59 * graphWidth.
Proof. reflexivity. Qed.

Lemma xScale_decreasing (temperatureData : list Point) (i j : Q) :
  temperatureData <> [] -> i < j ->
  xScale temperatureData j < xScale temperatureData i.
Proof.
  intros Hne Hij. destruct temperatureData as [|p rest]; [congruence|].
  rewrite !xScale_cons.
  set (m := Qmax (lengthOf (p :: rest) - 1) 59).
  assert (Hm : 0 < m).
  { apply Qlt_le_trans with 59; [reflexivity | apply maxTime_bounds]. }
  assert (Hdiv : i / m < j / m).
  { unfold Qdiv. apply Qmult_lt_compat_r; [|exact Hij].
    now apply Qinv_lt_0_compat. }
  assert (Hmul : i / m * graphWidth < j / m * graphWidth).
  { apply Qmult_lt_compat_r; [reflexivity | exact Hdiv]. }
  lra.
Qed.

(** C4.  On a display sequence that is not empty, index 0 (the oldest
    point) is drawn at the right edge and a larger index is drawn at a
    strictly smaller x.  The denominator is [max(length - 1, 59)]: with
    fewer than 60 points the newest point stays to the right of the left
    edge, and from 60 points on it is drawn on the left edge. *)
Theorem xScale_inverted (temperatureData : list Point) :
  temperatureData <> [] ->
  let n := lengthOf temperatureData in
  xScale temperatureData 0 == graphWidth
  /\ (forall i j : Q,
        i < j -> xScale temperatureData j < xScale temperatureData i)
  /\ (n < 60 -> 0 < xScale temperatureData (n - 1))
  /\ (60 <= n -> xScale temperatureData (n - 1) == 0).
Proof.
  intros Hne n. split; [|split; [|split]].
  - destruct temperatureData as [|p rest]; [congruence|].
    rewrite xScale_cons. unfold Qdiv. ring.
  - intros i j. now apply xScale_decreasing.
  - intros Hn. destruct temperatureData as [|p rest]; [congruence|].
    rewrite xScale_cons. fold n.
    set (m := Qmax (n - 1) 59).
    assert (Hm : 59 <= m) by apply maxTime_bounds.
    assert (Hdiv : (n - 1) / m < 1).
    { apply Qlt_shift_div_r; lra. }
    assert (Hmul : (n - 1) / m * graphWidth < 1 * graphWidth).
    { apply Qmult_lt_compat_r; [reflexivity | exact Hdiv]. }
    lra.
  - intros Hn. destruct temperatureData as [|p rest]; [congruence|].
    rewrite xScale_cons. fold n.
    assert (Hm : Qmax (n - 1) 59 == n - 1) by (apply Q.max_l; lra).
    rewrite Hm. field. lra.
Qed.

Section WithHost.
Context `{Host}.


End WithHost.

(** The state of the search after the points of [l], as a specification:
    nothing yet, or the first point of [l] at the least distance. *)
Lemma closest_fold (td l : list Point) (mouseX : Q) :
  (l = [] /\ fold_left (closer td mouseX) l (None, PosInf) = (None, PosInf))
  \/ exists (i : nat) (p : Point),
       l !! i = Some p
       /\ fold_left (closer td mouseX) l (None, PosInf)
          = (Some {| point := p;
                     x := xScale td (inject_Z (time p));
                     y := yScale (temperature p) |},
             Fin (distance td mouseX p))
       /\ (forall (j : nat) (q : Point), l !! j = Some q ->
             distance td mouseX p <= distance td mouseX q
             /\ ((j < i)%nat -> distance td mouseX p < distance td mouseX q)).
Proof.
  induction l as [|a l IH] using rev_ind; [left; split; reflexivity|].
  right. rewrite fold_left_app. cbn [fold_left].
  destruct IH as [[-> ->] | (i & p & Hi & -> & Hmin)].
  - exists 0%nat, a. split; [reflexivity|]. split; [reflexivity|].
    intros j q Hj. destruct j as [|j]; [|discriminate].
    injection Hj as <-. split; [apply Qle_refl | lia].
  - unfold closer at 1. fold (distance td mouseX a). cbn [ltb].
    destruct (Qltb (distance td mouseX a) (distance td mouseX p)) eqn:Hlt.
    + apply Qltb_lt in Hlt.
      exists (List.length l), a.
      split; [now rewrite lookup_app_r, Nat.sub_diag by lia|].
      split; [reflexivity|].
      intros j q Hj.
      destruct (Nat.lt_ge_cases j (List.length l)) as [Hjl|Hjl].
      * rewrite lookup_app_l in Hj by exact Hjl.
        destruct (Hmin j q Hj) as [Hle _].
        split; [|intros _]; lra.
      * rewrite lookup_app_r in Hj by exact Hjl.
        destruct (j - List.length l)%nat as [|k] eqn:Hk; [|discriminate].
        injection Hj as <-. split; [apply Qle_refl | lia].
    + apply Qltb_ge in Hlt.
      exists i, p.
      assert (Hil : (i < List.length l)%nat) by (eapply lookup_lt_Some; eauto).
      split; [now rewrite lookup_app_l|]. split; [reflexivity|].
      intros j q Hj.
      destruct (Nat.lt_ge_cases j (List.length l)) as [Hjl|Hjl].
      * rewrite lookup_app_l in Hj by exact Hjl. now apply Hmin.
      * rewrite lookup_app_r in Hj by exact Hjl.
        destruct (j - List.length l)%nat as [|k] eqn:Hk; [|discriminate].
        injection Hj as <-. split; [exact Hlt | lia].
Qed.

Lemma insideGraph_spec (rect : Rect) (event : MouseEvent) :
  Qle_bool 0 (pointerX rect event)
  && Qle_bool (pointerX rect event) graphWidth
  && Qle_bool 0 (pointerY rect event)
  && Qle_bool (pointerY rect event) graphHeight = true
  <-> insideGraph rect event.
Proof.
  unfold insideGraph. rewrite !andb_true_iff, !Qle_bool_iff. tauto.
Qed.


End Renderer.


(** The scale on the three sample points. *)
Lemma xScale_inverted_witness :
  (xScale samplePoints 0 == graphWidth
   /\ xScale samplePoints 2 < xScale samplePoints 1
   /\ 0 < xScale samplePoints (lengthOf samplePoints - 1))%Q.
Proof.
  assert (Hne : samplePoints <> []) by discriminate.
  destruct (xScale_inverted samplePoints Hne) as (H0 & Hdec & Hlt & _).
  split; [exact H0|]. split; [apply Hdec; reflexivity|].
  apply Hlt. reflexivity.
Defined.

(* ===================================================================== *)
(** * Refresh scheduler                                                   *)
(* ===================================================================== *)

Section RefreshScheduler.

Lemma clearRefreshTimer_next (s : Scheduler) :
  next_handle (clearRefreshTimer s) = next_handle (timers s).
Proof.
  unfold clearRefreshTimer.
  destruct (refreshTimer s) as [h|]; [|reflexivity].
  destruct (isSet (Some h)); reflexivity.
Qed.

(** Clearing the timer that [refreshTimer] holds leaves no interval. *)
Lemma clearRefreshTimer_armed (s : Scheduler) :
  consistent s -> armed (clearRefreshTimer s) = ∅.
Proof.
  intros (Hnext & Harmed & Hheld). apply map_empty. intros h.
  unfold clearRefreshTimer.
  destruct (refreshTimer s) as [h0|] eqn:Ht.
  - assert (Hset : isSet (Some h0) = true).
    { specialize (Hheld h0 eq_refl). simpl.
      destruct (h0 =? 0)%Z eqn:E; [apply Z.eqb_eq in E; lia | reflexivity]. }
    rewrite Hset. cbn [clearInterval armed].
    destruct (decide (h0 = h)) as [->|Hne].
    + apply lookup_delete_eq.
    + rewrite lookup_delete_ne by exact Hne.
      destruct (armed (timers s) !! h) as [d|] eqn:Hd; [|reflexivity].
      apply Harmed in Hd. congruence.
  - destruct (armed (timers s) !! h) as [d|] eqn:Hd; [|reflexivity].
    apply Harmed in Hd. discriminate.
Qed.

Lemma initial_consistent : consistent initial.
Proof.
  split; [reflexivity|]. split.
  - intros h d. cbn. rewrite lookup_empty. discriminate.
  - discriminate.
Qed.

(** The scheduler after [setupAutoRefresh], case by case. *)
Lemma setupAutoRefresh_cases (s : Scheduler) :
  consistent s ->
  (isAutoRefresh s && (0 <? refreshInterval s)%Z = true
   /\ refreshTimer (setupAutoRefresh s) = Some (next_handle (timers s))
   /\ next_handle (timers (setupAutoRefresh s))
      = (next_handle (timers s) + 1)%Z
   /\ armed (timers (setupAutoRefresh s))
      = {[ next_handle (timers s) := (refreshInterval s * 1000)%Z ]})
  \/ (isAutoRefresh s && (0 <? refreshInterval s)%Z = false
      /\ refreshTimer (setupAutoRefresh s) = refreshTimer s
      /\ next_handle (timers (setupAutoRefresh s)) = next_handle (timers s)
      /\ armed (timers (setupAutoRefresh s)) = ∅).
Proof.
  intros Hc. unfold setupAutoRefresh, setInterval.
  destruct (isAutoRefresh s && (0 <? refreshInterval s)%Z); [left | right];
    cbn [refreshTimer timers next_handle armed];
    rewrite ?clearRefreshTimer_next, (clearRefreshTimer_armed s Hc).
  - repeat split.
  - repeat split.
Qed.

Lemma setupAutoRefresh_consistent (s : Scheduler) :
  consistent s -> consistent (setupAutoRefresh s).
Proof.
  intros Hc. pose proof Hc as (Hnext & Harmed & Hheld).
  destruct (setupAutoRefresh_cases s Hc)
    as [(_ & Ht & Hn & Ha) | (_ & Ht & Hn & Ha)];
    unfold consistent; rewrite Ht, Hn, Ha.
  - split; [lia|]. split.
    + intros h d Hl. apply lookup_singleton_Some in Hl as [<- _]. reflexivity.
    + intros h E. injection E as <-. lia.
  - split; [exact Hnext|]. split.
    + intros h d. rewrite lookup_empty. discriminate.
    + exact Hheld.
Qed.

Lemma onDestroy_consistent (s : Scheduler) :
  consistent s -> consistent (onDestroy s).
Proof.
  intros Hc. pose proof Hc as (Hnext & Harmed & Hheld).
  unfold consistent, onDestroy. cbn [timers refreshTimer].
  rewrite clearRefreshTimer_next, (clearRefreshTimer_armed s Hc).
  split; [exact Hnext|]. split; [|exact Hheld].
  intros h d. rewrite lookup_empty. discriminate.
Qed.

Lemma reachable_consistent (s : Scheduler) : reachable s -> consistent s.
Proof.
  induction 1 as [|s s' _ IH Hstep]; [apply initial_consistent|].
  inversion Hstep; subst.
  - exact IH.
  - exact IH.
  - now apply setupAutoRefresh_consistent.
  - now apply onDestroy_consistent.
Qed.

(** C8.  In every state the page can reach, one call of
    [setupAutoRefresh] leaves at most one interval armed: the interval that
    [refreshTimer] held is cleared, and a new one, of [refreshInterval]
    seconds, is armed exactly when auto-refresh is enabled and the interval
    is positive. *)
Theorem setupAutoRefresh_single_timer (s : Scheduler) :
  reachable s ->
  let s' := setupAutoRefresh s in
  (size (armed (timers s')) <= 1)%nat
  /\ (forall h, refreshTimer s = Some h -> armed (timers s') !! h = None)
  /\ (isAutoRefresh s = true /\ (0 < refreshInterval s)%Z ->
      exists h, refreshTimer s' = Some h
                /\ armed (timers s) !! h = None
                /\ armed (timers s')
                   = {[ h := (refreshInterval s * 1000)%Z ]})
  /\ (~ (isAutoRefresh s = true /\ (0 < refreshInterval s)%Z) ->
      armed (timers s') = ∅).
Proof.
  intros Hr s'. unfold s'. clear s'.
  pose proof (reachable_consistent s Hr) as Hc.
  pose proof Hc as (Hnext & Harmed & Hheld).
  assert (Hfresh : armed (timers s) !! next_handle (timers s) = None).
  { destruct (armed (timers s) !! next_handle (timers s)) as [d|] eqn:Hd;
      [|reflexivity].
    apply Harmed, Hheld in Hd. lia. }
  destruct (setupAutoRefresh_cases s Hc)
    as [(Hon & Ht & _ & Ha) | (Hoff & _ & _ & Ha)].
  - apply andb_true_iff in Hon as [Hauto Hpos]. apply Z.ltb_lt in Hpos.
    rewrite Ha. split; [rewrite map_size_singleton; lia|]. split.
    + intros h Hh. apply lookup_singleton_None.
      specialize (Hheld h Hh). lia.
    + split; [|tauto]. intros _. eauto.
  - rewrite Ha. split; [rewrite map_size_empty; lia|]. split.
    + intros h _. apply lookup_empty.
    + split; [|reflexivity].
      intros [Hauto Hpos]. apply Z.ltb_lt in Hpos.
      rewrite Hauto, Hpos in Hoff. discriminate.
Qed.

End RefreshScheduler.

(** The scheduler of the page after the mount and a change of interval. *)
Lemma setupAutoRefresh_single_timer_witness :
  let s := {| isAutoRefresh := true; refreshInterval := 5;
              refreshTimer := refreshTimer (setupAutoRefresh initial);
              timers := timers (setupAutoRefresh initial) |} in
  reachable s
  /\ (size (armed (timers (setupAutoRefresh s))) <= 1)%nat
  /\ armed (timers (setupAutoRefresh s)) !! 1%Z = None.
Proof.
  set (s0 := setupAutoRefresh initial).
  assert (Hr : reachable
                 {| isAutoRefresh := isAutoRefresh s0; refreshInterval := 5;
                    refreshTimer := refreshTimer s0; timers := timers s0 |}).
  { eapply reachable_step; [|apply (step_selected s0 5%Z)].
    eapply reachable_step; [apply reachable_initial | apply step_setup]. }
  cbv zeta. split; [exact Hr|].
  destruct (setupAutoRefresh_single_timer _ Hr) as (Hsize & Hclear & _).
  split; [exact Hsize|]. apply Hclear. reflexivity.
Defined.

(* ===================================================================== *)
(** * The model on concrete requests                                      *)
(* ===================================================================== *)

Example parseInt_reads_a_prefix :
  parseInt "  42px" = of_Z 42 /\ parseInt "-7" = of_Z (-7)
  /\ parseInt "0x1F" = of_Z 31 /\ parseInt "px" = NaN.
Proof. repeat split. Qed.

Example parseFloat_reads_a_prefix :
  parseFloat (Some (JStr "12abc")) = Fin 12
  /\ parseFloat (Some (JNum (47 # 2))) = Fin (47 # 2)
  /\ parseFloat (Some JNull) = NaN
  /\ parseFloat (Some (JStr "Infinity")) = PosInf.
Proof. repeat split. Qed.

(** A complete reading is stored under the next id. *)
Example POST_complete_reading :
  let body := JObj [ ("temperature", JNum (47 # 2));
                     ("device_id", JStr "pico_1");
                     ("timestamp", JStr "2024-01-01 12:30:00") ] in
  exists db',
    POST (Some body) (Some (sampleDatabase Rejected))
    = (json (Saved 4 "Temperature reading saved successfully") None, Some db')
    /\ rows db'
       = (rows (sampleDatabase Rejected)
          ++ [ {| D1.id := 4;
                  D1.temperature := Num (Fin (47 # 2));
                  D1.timestamp := Text "2024-01-01 12:30:00";
                  D1.device_id := Text "pico_1";
                  D1.metadata := Null |} ])%list.
Proof. eexists. split; reflexivity. Qed.

Example POST_out_of_range :
  POST (Some (JObj [("temperature", JNum 150)])) (Some (sampleDatabase Rejected))
  = (json (Failure "temperature must be a number between -50 and 100")
          (Some 400%Z),
     Some (sampleDatabase Rejected)).
Proof. reflexivity. Qed.

Example POST_without_temperature :
  fst (POST (Some (JObj [("device_id", JStr "pico_1")])) None)
  = json (Failure "temperature field is required") (Some 400%Z).
Proof. reflexivity. Qed.

Example GET_defaults :
  exists data,
    GET [] (Some (sampleDatabase Rejected))
    = json (Listing data {| total := 3; limit := of_Z 100; offset := of_Z 0;
                            hasMore := false |}) None
    /\ map D1.id data = [3%Z; 2%Z; 1%Z].
Proof. eexists. split; reflexivity. Qed.

Example GET_limit_is_capped :
  requestedLimit [("limit", "5000")] = of_Z 1000.
Proof. reflexivity. Qed.

Example GET_without_database :
  GET [] None = json (Failure "Database not available") (Some 500%Z).
Proof. reflexivity. Qed.

Example generated_sequence_has_sixty_points :
  map time (generateTemperatureData 0 0)
  = map Z.of_nat (seq 0 60).
Proof. reflexivity. Qed.

Example path_of_the_sample :
  generatePath samplePoints (firstn 2 samplePoints)
  = "M 700 282.66666666666666666 L 688.13559322033898305 277.33333333333333333".
Proof. reflexivity. Qed.

Example pointer_far_from_every_point :
  handleMouseMove samplePoints (Some {| rect_left := 0; rect_top := 0 |})
    {| clientX := 400; clientY := 100 |} None = None.
Proof. reflexivity. Qed.

(* ===================================================================== *)
(** * Ingestion: what is stored                                           *)
(* ===================================================================== *)

Section Stored.
Context `{Host}.
Local Open Scope Q_scope.

(** A temperature that passes the guard of [POST] is a finite number of
    the accepted interval. *)
Lemma guard_passed (t : num) :
  isNaN t || ltb t (of_Z (-50)) || gtb t (of_Z 100) = false ->
  exists q, t = Fin q /\ -50 <= q <= 100.
Proof.
  intros Hg.
  assert (Hn : ~ (t = NaN \/ outsideRange t)).
  { intros Hbad. apply guard_spec in Hbad. congruence. }
  destruct t as [| | |q]; simpl in Hn; try tauto.
  exists q. split; [reflexivity|].
  split; apply Qnot_lt_le; tauto.
Qed.

(** The INSERT of the endpoint, when the store accepts it: one row is
    appended under the next id. *)
Lemma run_insertReading (db db' : Database) (q : Q) (d ts m : value)
    (new_id : Z) :
  run db insertReading [VNum (Fin q); d; ts; m] = Ok (db', new_id) ->
  exists dv tv mv,
    bindValue (on_undefined db) d = Ok dv
    /\ bindValue (on_undefined db) ts = Ok tv
    /\ bindValue (on_undefined db) m = Ok mv
    /\ new_id = (sequence db + 1)%Z
    /\ db' = {| rows := (rows db
                         ++ [ {| D1.id := new_id;
                                 D1.temperature := Num (Fin q);
                                 D1.timestamp := tv;
                                 D1.device_id := dv;
                                 D1.metadata := mv |} ])%list;
                sequence := new_id;
                current_timestamp := current_timestamp db;
                on_undefined := on_undefined db |}.
Proof.
  unfold run. cbn [into columns insertReading].
  change (negb (String.eqb "temperature_readings" table_name)) with false.
  change (negb (forallb hasColumn
                  ["temperature"; "device_id"; "timestamp"; "metadata"]))
    with false.
  cbn [List.length Nat.eqb negb bindAll bindValue mbind result_bind].
  destruct (bindValue (on_undefined db) d) as [dv|]; [|discriminate].
  destruct (bindValue (on_undefined db) ts) as [tv|]; [|discriminate].
  destruct (bindValue (on_undefined db) m) as [mv|]; [|discriminate].
  cbn [mbind result_bind].
  change (assoc "id" ["temperature"; "device_id"; "timestamp"; "metadata"]
            [Num (Fin q); dv; tv; mv]) with (@None Value).
  cbn [mbind result_bind D1.temperature].
  change (field "temperature"
            ["temperature"; "device_id"; "timestamp"; "metadata"]
            [Num (Fin q); dv; tv; mv] Null) with (Num (Fin q)).
  change (field "timestamp"
            ["temperature"; "device_id"; "timestamp"; "metadata"]
            [Num (Fin q); dv; tv; mv] (Text (current_timestamp db))) with tv.
  change (field "device_id"
            ["temperature"; "device_id"; "timestamp"; "metadata"]
            [Num (Fin q); dv; tv; mv] device_id_default) with dv.
  change (field "metadata"
            ["temperature"; "device_id"; "timestamp"; "metadata"]
            [Num (Fin q); dv; tv; mv] Null) with mv.
  destruct (existsb _ (rows db)); [discriminate|].
  intros E. injection E as <- <-.
  exists dv, tv, mv. repeat split.
  now rewrite Z.max_r by lia.
Qed.

(** The two ways [POST] ends: a failure that leaves the store alone, or
    one row appended with the validated temperature. *)
Lemma POST_cases (request : option Json) (platform : option Database) :
  (snd (POST request platform) = platform
   /\ ok (fst (POST request platform)) = false
   /\ (status (fst (POST request platform)) = 400%Z
       \/ status (fst (POST request platform)) = 500%Z))
  \/ exists body db q r,
       request = Some body /\ platform = Some db
       /\ parseFloat (getProp body "temperature") = Fin q
       /\ -50 <= q <= 100
       /\ D1.temperature r = Num (Fin q)
       /\ D1.id r = (sequence db + 1)%Z
       /\ POST request platform
          = (json (Saved (D1.id r) "Temperature reading saved successfully")
                  None,
             Some {| rows := (rows db ++ [r])%list;
                     sequence := D1.id r;
                     current_timestamp := current_timestamp db;
                     on_undefined := on_undefined db |}).
Proof.
  unfold POST, POST_try.
  destruct request as [body|]; cbn [mbind result_bind try_catch];
    [|left; cbn; auto].
  destruct (hasOwnProperty body "temperature") as [[|]|];
    cbn [mbind result_bind try_catch negb]; [|left; cbn; auto..].
  destruct (isNaN (parseFloat (getProp body "temperature"))
            || ltb (parseFloat (getProp body "temperature")) (of_Z (-50))
            || gtb (parseFloat (getProp body "temperature")) (of_Z 100))
    eqn:Hg; [left; cbn; auto|].
  destruct (guard_passed _ Hg) as (q & Hq & Hrange). rewrite Hq.
  destruct platform as [db|]; [|left; cbn; auto].
  match goal with |- context [run db insertReading ?args] =>
    destruct (run db insertReading args) as [[db' new_id]|] eqn:Hrun
  end; cbn [mbind result_bind try_catch]; [|left; cbn; auto].
  right. destruct (run_insertReading _ _ _ _ _ _ _ Hrun)
    as (dv & tv & mv & _ & _ & _ & Hid & ->).
  exists body, db, q.
  eexists {| D1.id := new_id; D1.temperature := Num (Fin q) |}.
  cbn [D1.id D1.temperature]. repeat split; try tauto; exact Hid.
Qed.

(** X1.  Whatever the request, a row that [POST] adds to the table holds
    the number [parseFloat] reads in the temperature field of the body,
    and that number lies in [-50, 100]. *)
Theorem POST_stores_validated_temperature
    (request : option Json) (platform : option Database) (r : Row) :
  stored platform (snd (POST request platform)) r ->
  exists body q,
    request = Some body
    /\ parseFloat (getProp body "temperature") = Fin q
    /\ D1.temperature r = Num (Fin q)
    /\ -50 <= q <= 100.
Proof.
  intros Hst.
  destruct (POST_cases request platform)
    as [(Hsame & _) | (body & db & q & r0 & -> & -> & Hq & Hrange & Ht & _ & E)].
  - rewrite Hsame in Hst. unfold stored in Hst. destruct platform; tauto.
  - rewrite E in Hst. cbn [snd stored rows] in Hst. destruct Hst as [Hin Hnot].
    apply in_app_or in Hin. destruct Hin as [Hin|[<-|[]]]; [contradiction|].
    exists body, q. tauto.
Qed.

(** X2.  [POST] answers 200, 400 or 500.  An answer that is not [ok]
    leaves the table as it was; an [ok] answer has status 200 and the table
    has grown by exactly one row, placed after the rows it had, whose id is
    the one returned and is one more than the last id handed out. *)
Theorem POST_outcomes (request : option Json) (platform : option Database) :
  let response := fst (POST request platform) in
  let after := snd (POST request platform) in
  (status response = 200%Z \/ status response = 400%Z
   \/ status response = 500%Z)
  /\ (ok response = false -> after = platform)
  /\ (ok response = true ->
      status response = 200%Z
      /\ exists db db' r message,
           platform = Some db /\ after = Some db'
           /\ rows db' = (rows db ++ [r])%list
           /\ body response = Saved (D1.id r) message
           /\ D1.id r = (sequence db + 1)%Z
           /\ sequence db' = D1.id r).
Proof.
  intros response after. unfold response, after.
  destruct (POST_cases request platform)
    as [(Hsame & Hok & Hst) | (body & db & q & r & -> & -> & _ & _ & _ & Hid & E)].
  - split; [tauto|]. split; [intros _; exact Hsame | congruence].
  - rewrite E. cbn [fst snd]. split; [left; reflexivity|].
    split; [discriminate|]. intros _. split; [reflexivity|].
    eexists db, _, r, _. repeat split. exact Hid.
Qed.


End Stored.

(** A complete reading of 23.5 degrees is stored as 23.5. *)
Lemma POST_stores_validated_temperature_witness :
  let body := JObj [ ("temperature", JNum (47 # 2));
                     ("device_id", JStr "pico_1");
                     ("timestamp", JStr "2024-01-01 12:30:00") ] in
  let r := {| D1.id := 4;
              D1.temperature := Num (Fin (47 # 2));
              D1.timestamp := Text "2024-01-01 12:30:00";
              D1.device_id := Text "pico_1";
              D1.metadata := Null |} in
  exists b q,
    Some body = Some b
    /\ parseFloat (getProp b "temperature") = Fin q
    /\ D1.temperature r = Num (Fin q)
    /\ (-50 <= q <= 100)%Q.
Proof.
  refine (POST_stores_validated_temperature _
            (Some (sampleDatabase Rejected)) _ _).
  split.
  - cbn. do 3 right. left. reflexivity.
  - cbn. intros [E|[E|[E|[]]]]; discriminate.
Defined.


(* ===================================================================== *)
(** * Listing: pages                                                      *)
(* ===================================================================== *)

Section Pages.

(** The answer of [GET] without a location filter, for a limit and an
    offset that read as integers. *)
Lemma GET_listing
    (searchParams : list (string * string)) (db : Database) (L O : Z) :
  requestedLimit searchParams = of_Z L ->
  requestedOffset searchParams = of_Z O ->
  missing "location" searchParams ->
  GET searchParams (Some db)
  = json (Listing (window L O (orderDesc "timestamp" (rows db)))
            {| total := Z.of_nat (List.length (rows db));
               limit := of_Z L;
               offset := of_Z O;
               hasMore := (O + L <? Z.of_nat (List.length (rows db)))%Z |})
         None.
Proof.
  intros HL HO Hloc. unfold GET, GET_try. rewrite HL, HO.
  assert (Hq : listQuery (searchParamsGet "location" searchParams)
               = {| from := "temperature_readings"; where_column := None;
                    order_by_desc := "timestamp" |})
    by (destruct Hloc as [-> | ->]; reflexivity).
  assert (Hc : countQuery (searchParamsGet "location" searchParams)
               = {| count_from := "temperature_readings";
                    count_where := None |})
    by (destruct Hloc as [-> | ->]; reflexivity).
  assert (Hp : locationParams (searchParamsGet "location" searchParams) = [])
    by (destruct Hloc as [-> | ->]; reflexivity).
  rewrite Hq, Hc, Hp, all_unfiltered, allCount_unfiltered.
  cbn [app mbind result_bind try_catch].
  rewrite ltb_add_of_Z. reflexivity.
Qed.

Lemma orderDesc_length (c : string) (l : list Row) :
  List.length (orderDesc c l) = List.length l.
Proof. apply Permutation_length, stableSort_Permutation. Qed.

Lemma orderDesc_In (c : string) (l : list Row) (r : Row) :
  In r (orderDesc c l) <-> In r l.
Proof. apply stableSort_In. Qed.



Lemma window_append (l1 l2 offset : Z) (l : list Row) :
  (0 <= l1)%Z -> (0 <= l2)%Z -> (0 <= offset)%Z ->
  window (l1 + l2) offset l
  = (window l1 offset l ++ window l2 (offset + l1) l)%list.
Proof.
  intros H1 H2 Ho. unfold window.
  destruct (l1 + l2 <? 0)%Z eqn:E12; [apply Z.ltb_lt in E12; lia|].
  destruct (l1 <? 0)%Z eqn:E1; [apply Z.ltb_lt in E1; lia|].
  destruct (l2 <? 0)%Z eqn:E2; [apply Z.ltb_lt in E2; lia|].
  rewrite !Z2Nat.inj_add by lia.
  rewrite <- drop_drop. apply eq_sym, take_take_drop.
Qed.

(** X4.  After a reading is saved, the id returned is greater than the id
    of every row the table had (when no row was above the last id handed
    out, which then still holds), the total of the listing has grown by
    one, and the default listing contains the new row as long as the table
    had fewer than 100 rows. *)
Theorem POST_then_GET `{Host}
    (body : Json) (db db' : Database) (response : Response) :
  idsIssued db ->
  POST (Some body) (Some db) = (response, Some db') ->
  ok response = true ->
  exists r message,
    Api.body response = Saved (D1.id r) message
    /\ rows db' = (rows db ++ [r])%list
    /\ (forall r0, In r0 (rows db) -> (D1.id r0 < D1.id r)%Z)
    /\ idsIssued db'
    /\ (exists data meta,
          Api.body (GET [] (Some db')) = Listing data meta
          /\ total meta = (Z.of_nat (List.length (rows db)) + 1)%Z)
    /\ ((List.length (rows db) < 100)%nat ->
        In r (listed (GET [] (Some db')))).
Proof.
  intros Hids Hpost Hok.
  destruct (POST_cases (Some body) (Some db))
    as [(_ & Hnot & _) | (b & d & q & r & _ & Hd & _ & _ & _ & Hid & E)].
  - rewrite Hpost in Hnot. cbn [fst] in Hnot. congruence.
  - injection Hd as <-. rewrite Hpost in E. injection E as -> ->.
    exists r, "Temperature reading saved successfully".
    cbn [rows sequence Api.body json].
    split; [reflexivity|]. split; [reflexivity|]. split.
    { intros r0 Hr0. specialize (Hids r0 Hr0). lia. }
    split.
    { intros r0 Hr0. cbn [rows sequence] in *.
      apply in_app_or in Hr0. destruct Hr0 as [Hr0|[<-|[]]]; [|lia].
      specialize (Hids r0 Hr0). lia. }
    rewrite (GET_listing [] _ 100 0 eq_refl eq_refl (or_introl eq_refl)).
    cbn [rows Api.body json listed total]. split.
    { eexists _, _. split; [reflexivity|]. cbn [total].
      rewrite length_app. cbn [List.length]. lia. }
    intros Hsmall. unfold window.
    change (100 <? 0)%Z with false. change (Z.to_nat 0) with 0%nat.
    change (Z.to_nat 100) with 100%nat. rewrite drop_0.
    rewrite firstn_all2.
    + apply orderDesc_In, in_or_app. right. now left.
    + rewrite orderDesc_length, length_app. cbn [List.length]. lia.
Qed.


(** X6.  Consecutive pages join: the page of [L1] rows at offset [O]
    followed by the page of [L2] rows at offset [O + L1] is the page of
    [L1 + L2] rows at offset [O]. *)
Theorem GET_pages_compose
    (first second both : list (string * string)) (db : Database)
    (L1 L2 O : Z) :
  (0 <= L1)%Z -> (0 <= L2)%Z -> (0 <= O)%Z ->
  requestedLimit first = of_Z L1 -> requestedOffset first = of_Z O ->
  missing "location" first ->
  requestedLimit second = of_Z L2 ->
  requestedOffset second = of_Z (O + L1) ->
  missing "location" second ->
  requestedLimit both = of_Z (L1 + L2) -> requestedOffset both = of_Z O ->
  missing "location" both ->
  listed (GET both (Some db))
  = (listed (GET first (Some db)) ++ listed (GET second (Some db)))%list.
Proof.
  intros H1 H2 HO Hl1 Ho1 Hm1 Hl2 Ho2 Hm2 Hl3 Ho3 Hm3.
  rewrite (GET_listing _ db _ _ Hl1 Ho1 Hm1),
          (GET_listing _ db _ _ Hl2 Ho2 Hm2),
          (GET_listing _ db _ _ Hl3 Ho3 Hm3).
  cbn [listed Api.body json]. now apply window_append.
Qed.

End Pages.

(** A reading saved into the sample table, then listed. *)
Lemma POST_then_GET_witness :
  let body := JObj [ ("temperature", JNum (47 # 2));
                     ("device_id", JStr "pico_1");
                     ("timestamp", JStr "2024-01-01 12:30:00") ] in
  exists r db',
    snd (POST (Some body) (Some (sampleDatabase Rejected))) = Some db'
    /\ D1.id r = 4%Z
    /\ In r (listed (GET [] (Some db'))).
Proof.
  assert (Hids : idsIssued (sampleDatabase Rejected)).
  { intros r [<-|[<-|[<-|[]]]]; cbn; lia. }
  set (saved := {| D1.id := 4;
                   D1.temperature := Num (Fin (47 # 2));
                   D1.timestamp := Text "2024-01-01 12:30:00";
                   D1.device_id := Text "pico_1";
                   D1.metadata := Null |}).
  set (db' := {| rows := (rows (sampleDatabase Rejected) ++ [saved])%list;
                 sequence := 4;
                 current_timestamp := "2024-01-01 13:00:00";
                 on_undefined := Rejected |}).
  assert (Hpost :
    POST (Some (JObj [ ("temperature", JNum (47 # 2));
                       ("device_id", JStr "pico_1");
                       ("timestamp", JStr "2024-01-01 12:30:00") ]))
         (Some (sampleDatabase Rejected))
    = (json (Saved 4 "Temperature reading saved successfully") None,
       Some db')) by reflexivity.
  destruct (POST_then_GET _ _ _ _ Hids Hpost eq_refl)
    as (r & message & Hbody & _ & _ & _ & _ & Hin).
  exists r, db'. split; [reflexivity|]. split.
  - cbn in Hbody. injection Hbody as Hid _. symmetry. exact Hid.
  - apply Hin. cbn. lia.
Defined.


(** Pages of one and two rows of the sample table join into three. *)
Lemma GET_pages_compose_witness :
  listed (GET [("limit", "3")] (Some (sampleDatabase Rejected)))
  = (listed (GET [("limit", "1")] (Some (sampleDatabase Rejected)))
     ++ listed (GET [("limit", "2"); ("offset", "1")]
                    (Some (sampleDatabase Rejected))))%list.
Proof.
  apply (GET_pages_compose [("limit", "1")] [("limit", "2"); ("offset", "1")]
           [("limit", "3")] (sampleDatabase Rejected) 1 2 0);
    try lia; try reflexivity; left; reflexivity.
Defined.

(* ===================================================================== *)
(** * Client data layer: what the sequences hold                          *)
(* ===================================================================== *)

Section Sequences.
Context `{Host}.
Local Open Scope Q_scope.



Lemma round_clamped (v : Q) :
  (200 <= round (Qmax 20 (Qmin 50 v) * 10) <= 500)%Z.
Proof.
  set (t := Qmax 20 (Qmin 50 v)).
  assert (Hlo : 20 <= t) by apply Q.le_max_l.
  assert (Hhi : t <= 50).
  { apply Q.max_lub; [discriminate | apply Q.le_min_l]. }
  unfold round. split.
  - change 200%Z with (Qfloor 200). apply Qfloor_resp_le. lra.
  - change 500%Z with (Qfloor (1001 # 2)). apply Qfloor_resp_le. lra.
Qed.

(** The point that the generator makes at position [k]. *)
Lemma generateFrom_lookup (count i : nat) (baseTemp : Q) (draw clock k : nat)
    (p : Point) :
  generateFrom count i baseTemp draw clock !! k = Some p ->
  time p = Z.of_nat (i + k)
  /\ (exists z, temperature p = inject_Z z / 10 /\ (200 <= z <= 500)%Z)
  /\ id p = None /\ device_id p = None /\ dbTimestamp p = None.
Proof.
  revert i baseTemp draw clock k.
  induction count as [|count IH]; intros i baseTemp draw clock k;
    [discriminate|].
  destruct k as [|k]; cbn [generateFrom lookup list_lookup].
  - intros E. injection E as <-. cbn [time temperature id device_id dbTimestamp].
    rewrite Nat.add_0_r. split; [reflexivity|].
    split; [|auto]. eexists. split; [reflexivity | apply round_clamped].
  - intros Hk. apply IH in Hk.
    replace (i + S k)%nat with (S i + k)%nat by lia. exact Hk.
Qed.

Lemma generated_indexed (draw clock : nat) :
  indexed (generateTemperatureData draw clock).
Proof.
  intros k p Hk. now apply generateFrom_lookup in Hk as [Ht _].
Qed.

Lemma transform_indexed (data : list PicoData.t) : indexed (transform data).
Proof.
  intros i p. unfold transform. rewrite list_lookup_imap.
  destruct (sortedData data !! i); simpl; [|discriminate].
  intros E. injection E as <-. reflexivity.
Qed.

(** A fetch gives the transform of its readings or the generated data. *)
Lemma fetchTemperatureData_cases (fetched : Fetched) (draw clock : nat) :
  (exists readings, fetched = Parsed true (Readings readings)
                    /\ fetchTemperatureData fetched draw clock
                       = transform readings)
  \/ fetchTemperatureData fetched draw clock
     = generateTemperatureData draw clock.
Proof.
  destruct fetched as [| |[|] [| |readings]]; try (right; reflexivity).
  left. now exists readings.
Qed.

Lemma fetched_indexed (fetched : Fetched) (draw clock : nat) :
  indexed (fetchTemperatureData fetched draw clock).
Proof.
  destruct (fetchTemperatureData_cases fetched draw clock)
    as [(readings & _ & ->) | ->].
  - apply transform_indexed.
  - apply generated_indexed.
Qed.

(** X7.  Whatever the random numbers and the clock, the generated
    sequence numbers its points 0 to 59 in order, gives each a temperature
    with one decimal (a tenth of an integer between 200 and 500), and
    leaves [id], [device_id] and [dbTimestamp] undefined. *)
Theorem generateTemperatureData_shape (draw clock : nat) :
  map time (generateTemperatureData draw clock) = map Z.of_nat (seq 0 60)
  /\ Forall (fun p =>
              (exists z, temperature p = inject_Z z / 10
                         /\ (200 <= z <= 500)%Z)
              /\ id p = None /\ device_id p = None /\ dbTimestamp p = None)
           (generateTemperatureData draw clock).
Proof.
  split.
  - apply list_eq. intros k.
    change (map time (generateTemperatureData draw clock))
      with (time <$> generateTemperatureData draw clock).
    change (map Z.of_nat (seq 0 60)) with (Z.of_nat <$> seq 0 60).
    rewrite !list_lookup_fmap.
    destruct (generateTemperatureData draw clock !! k) as [p|] eqn:Hk.
    + pose proof (lookup_lt_Some _ _ _ Hk) as Hlt.
      unfold generateTemperatureData in Hlt.
      rewrite generateFrom_length in Hlt.
      apply generateFrom_lookup in Hk as [Ht _].
      rewrite (proj2 (lookup_seq 0 60 k k) (conj eq_refl Hlt)).
      cbn. now rewrite Ht.
    + apply lookup_ge_None in Hk. unfold generateTemperatureData in Hk.
      rewrite generateFrom_length in Hk.
      rewrite (proj2 (lookup_ge_None (seq 0 60) k)); [reflexivity|].
      now rewrite length_seq.
  - apply Forall_lookup. intros k p Hk.
    now apply generateFrom_lookup in Hk as [_ Hrest].
Qed.

Lemma readingOf_imap (f : nat -> PicoData.t -> Point) (l : list PicoData.t) :
  (forall i r, readingOf (f i r) = r) ->
  map readingOf (imap f l) = l.
Proof.
  revert f. induction l as [|r l IH]; intros f Hf; [reflexivity|].
  cbn [imap map]. rewrite Hf. f_equal. apply IH. intros i r'. apply Hf.
Qed.

(** X8.  A successful answer is shown whole and never replaced by
    generated data: from the points one reads back exactly the readings,
    in sorted order, with their id, temperature (not clamped), timestamp
    and device; no reading is dropped or added, an empty answer included. *)
Theorem fetch_success_keeps_readings
    (readings : list PicoData.t) (draw clock : nat) :
  let data := fetchTemperatureData (Parsed true (Readings readings))
                draw clock in
  map readingOf data = sortedData readings
  /\ Permutation (map readingOf data) readings
  /\ List.length data = List.length readings.
Proof.
  intros data.
  assert (Hback : map readingOf data = sortedData readings).
  { unfold data. cbn. unfold transform. apply readingOf_imap.
    intros i [i0 t ts d]. reflexivity. }
  split; [exact Hback|]. split.
  - rewrite Hback. apply stableSort_Permutation.
  - rewrite <- (length_map readingOf), Hback.
    apply Permutation_length, stableSort_Permutation.
Qed.

(** In a list without an adjacent inversion whose readings all carry a
    date, the head is not later than any other reading. *)
Lemma ordered_head (x : PicoData.t) (l : list PicoData.t) :
  ordered (fun a b => gtb (byTimestamp a b) (of_Z 0)) (x :: l) ->
  (forall r, In r (x :: l) -> exists ms, datedAt r ms) ->
  forall r a b, In r l -> datedAt x a -> datedAt r b -> a <= b.
Proof.
  revert x. induction l as [|y l IH]; intros x Hord Hdated r a b Hr Ha Hb;
    [destruct Hr|].
  destruct Hord as [Hxy Hord].
  destruct (Hdated y (or_intror (or_introl eq_refl))) as [c Hc].
  assert (Hac : a <= c).
  { unfold byTimestamp, datedAt in *. rewrite Ha, Hc in Hxy.
    unfold gtb, sub in Hxy. cbn in Hxy. apply Qltb_ge in Hxy.
    change (inject_Z 0) with 0 in Hxy. lra. }
  destruct Hr as [<-|Hr].
  - unfold datedAt in *. rewrite Hc in Hb. injection Hb as <-. exact Hac.
  - apply Qle_trans with c; [exact Hac|].
    apply (IH y Hord) with r; auto.
    intros r' Hr'. apply Hdated. now right.
Qed.

Lemma ordered_pairwise (l : list PicoData.t) :
  ordered (fun a b => gtb (byTimestamp a b) (of_Z 0)) l ->
  (forall r, In r l -> exists ms, datedAt r ms) ->
  forall (i j : nat) r r' a b,
    (i < j)%nat -> l !! i = Some r -> l !! j = Some r' ->
    datedAt r a -> datedAt r' b -> a <= b.
Proof.
  induction l as [|x l IH]; intros Hord Hdated i j r r' a b Hij Hi Hj Ha Hb;
    [discriminate|].
  destruct j as [|j]; [lia|]. cbn in Hj.
  destruct i as [|i]; cbn in Hi.
  - injection Hi as <-. apply (ordered_head x l Hord Hdated r'); auto.
    apply list_elem_of_In, list_elem_of_lookup. eauto.
  - apply (IH) with i j r r'; auto; try lia.
    + destruct l; [exact I | apply Hord].
    + intros r0 Hr0. apply Hdated. now right.
Qed.

(** X9.  When the timestamp of every reading is a date, the display
    sequence runs from the oldest to the newest: a point at a smaller
    position carries a smaller index and a date that is not later. *)
Theorem transform_oldest_first (data : list PicoData.t) :
  (forall r, In r data -> exists ms, datedAt r ms) ->
  forall (i j : nat) (p q : Point),
    (i < j)%nat ->
    transform data !! i = Some p -> transform data !! j = Some q ->
    (time p < time q)%Z
    /\ exists a b,
         datedAt (readingOf p) a /\ datedAt (readingOf q) b /\ a <= b.
Proof.
  intros Hdated i j p q Hij Hp Hq.
  unfold transform in Hp, Hq. rewrite list_lookup_imap in Hp, Hq.
  destruct (sortedData data !! i) as [r|] eqn:Hi; [|discriminate].
  destruct (sortedData data !! j) as [r'|] eqn:Hj; [|discriminate].
  cbn in Hp, Hq. injection Hp as <-. injection Hq as <-.
  split; [cbn; lia|].
  assert (Hall : forall r0, In r0 (sortedData data) -> exists ms, datedAt r0 ms).
  { intros r0 Hr0. apply Hdated. now apply stableSort_In in Hr0. }
  destruct (Hall r) as [a Ha];
    [apply list_elem_of_In, list_elem_of_lookup; eauto|].
  destruct (Hall r') as [b Hb];
    [apply list_elem_of_In, list_elem_of_lookup; eauto|].
  exists a, b.
  assert (Er : readingOf (toPoint i r) = r) by now destruct r.
  assert (Er' : readingOf (toPoint j r') = r') by now destruct r'.
  rewrite Er, Er'. split; [exact Ha|]. split; [exact Hb|].
  apply (ordered_pairwise (sortedData data)) with i j r r'; auto.
  apply stableSort_ordered, byTimestamp_asym.
Qed.

End Sequences.

(** The three sample readings, given newest first, are shown oldest
    first. *)
Lemma transform_oldest_first_witness :
  exists p q,
    transform sampleReadings !! 0%nat = Some p
    /\ transform sampleReadings !! 2%nat = Some q
    /\ (time p < time q)%Z
    /\ id p = Some 1%Z /\ id q = Some 3%Z.
Proof.
  assert (Hdated : forall r, In r sampleReadings -> exists ms, datedAt r ms).
  { intros r [<-|[<-|[<-|[]]]]; eexists; reflexivity. }
  eexists _, _. split; [reflexivity|]. split; [reflexivity|].
  split; [|split; reflexivity].
  exact (proj1 (transform_oldest_first sampleReadings Hdated 0%nat 2%nat
                  _ _ (Nat.lt_0_succ 1) eq_refl eq_refl)).
Defined.

(* ===================================================================== *)
(** * Graph renderer: where points are drawn                              *)
(* ===================================================================== *)

Section Drawing.
Context `{Host}.
Local Open Scope Q_scope.

Lemma graphHeight_value : graphHeight == 320.
Proof. reflexivity. Qed.

Lemma yScale_value (t : Q) : yScale t == (32 # 3) * (50 - t).
Proof.
  unfold yScale, graphHeight, height, padding.top, padding.bottom. field.
Qed.

Lemma yScale_inside (t : Q) :
  0 <= yScale t <= graphHeight <-> 20 <= t <= 50.
Proof.
  pose proof (yScale_value t) as Et. pose proof graphHeight_value as Hh.
  split; intros [Hlo Hhi]; split; lra.
Qed.


(** The horizontal position of an index of the sequence. *)
Lemma xScale_range (data : list Point) (t : Q) :
  data <> [] -> 0 <= t <= lengthOf data - 1 ->
  0 <= xScale data t <= graphWidth.
Proof.
  intros Hne [Ht0 Htn]. destruct data as [|p rest]; [congruence|].
  rewrite xScale_cons.
  set (m := Qmax (lengthOf (p :: rest) - 1) 59).
  assert (Hm59 : 59 <= m) by apply maxTime_bounds.
  assert (Hmn : lengthOf (p :: rest) - 1 <= m) by apply Q.le_max_l.
  assert (Hlo : 0 <= t / m) by (apply Qle_shift_div_l; lra).
  assert (Hhi : t / m <= 1) by (apply Qle_shift_div_r; lra).
  pose proof graphWidth_value as Hw. rewrite Hw.
  split; nra.
Qed.

Lemma indexed_time (data : list Point) (p : Point) :
  indexed data -> In p data ->
  0 <= inject_Z (time p) <= lengthOf data - 1.
Proof.
  intros Hidx Hp.
  apply list_elem_of_In, list_elem_of_lookup in Hp as [i Hi].
  pose proof (lookup_lt_Some _ _ _ Hi) as Hlt.
  rewrite (Hidx i p Hi). unfold lengthOf.
  change 0 with (inject_Z 0). change 1 with (inject_Z 1).
  unfold Qminus. rewrite <- inject_Z_opp, <- inject_Z_plus, <- !Zle_Qle.
  lia.
Qed.

(** X10.  Every sequence that [fetchTemperatureData] returns numbers its
    points by position, and every one of its points is drawn between the
    left and the right edge of the graph; the points of the generated
    fallback are also drawn between the top and the bottom edge. *)
Theorem fetched_points_fit (fetched : Fetched) (draw clock : nat) (p : Point) :
  let data := fetchTemperatureData fetched draw clock in
  In p data ->
  indexed data
  /\ 0 <= xScale data (inject_Z (time p)) <= graphWidth
  /\ (failed fetched -> 0 <= yScale (temperature p) <= graphHeight).
Proof.
  intros data Hp.
  pose proof (fetched_indexed fetched draw clock) as Hidx. fold data in Hidx.
  split; [exact Hidx|]. split.
  - apply xScale_range; [intros E; rewrite E in Hp; destruct Hp|].
    now apply indexed_time.
  - intros Hfail.
    assert (Hgen : data = generateTemperatureData draw clock).
    { unfold data. destruct fetched as [| |ok d]; simpl in Hfail;
        [reflexivity..|]. subst ok. reflexivity. }
    rewrite Hgen in Hp.
    pose proof (generateFrom_clamped 60 0 35 draw clock) as Hall.
    rewrite Forall_forall in Hall.
    apply yScale_inside, Hall, list_elem_of_In. exact Hp.
Qed.

End Drawing.

(** The generated point of index 0, drawn on the right edge. *)
Lemma fetched_points_fit_witness :
  exists p,
    In p (fetchTemperatureData Rejects 0 0)
    /\ time p = 0%Z
    /\ (0 <= xScale (fetchTemperatureData Rejects 0 0) (inject_Z (time p))
        <= graphWidth)%Q
    /\ (0 <= yScale (temperature p) <= graphHeight)%Q.
Proof.
  eexists. split; [left; reflexivity|]. split; [reflexivity|].
  destruct (fetched_points_fit Rejects 0 0 _ (or_introl eq_refl))
    as (_ & Hx & Hy).
  split; [exact Hx | exact (Hy I)].
Defined.

(* ===================================================================== *)
(** * Graph renderer: a full sequence under the pointer                   *)
(* ===================================================================== *)

Section DenseSequence.
Local Open Scope Q_scope.

(** Inside the graph, a point nearer than 20 pixels gives a tooltip. *)
Lemma handleMouseMove_hit
    (data : list Point) (rect : Rect) (event : MouseEvent)
    (hoveredPoint : option Hovered) (q : Point) :
  insideGraph rect event ->
  In q data -> distance data (pointerX rect event) q < 20 ->
  exists h,
    handleMouseMove data (Some rect) event hoveredPoint = Some h
    /\ In (point h) data
    /\ distance data (pointerX rect event) (point h)
       <= distance data (pointerX rect event) q.
Proof.
  intros Hin Hq Hdq. unfold handleMouseMove.
  fold (pointerX rect event) (pointerY rect event).
  apply insideGraph_spec in Hin. rewrite Hin. unfold closest.
  destruct (closest_fold data data (pointerX rect event))
    as [[-> _] | (i & p & Hi & -> & Hmin)]; [destruct Hq|].
  cbn [ltb of_Z].
  apply list_elem_of_In, list_elem_of_lookup in Hq as [j Hj].
  destruct (Hmin j q Hj) as [Hle _].
  assert (Hd : Qltb (distance data (pointerX rect event) p) (inject_Z 20)
               = true).
  { apply Qltb_lt. change (inject_Z 20) with 20. lra. }
  rewrite Hd. eexists. split; [reflexivity|]. cbn [point].
  split; [|exact Hle]. apply list_elem_of_In, list_elem_of_lookup. eauto.
Qed.

(** From 60 points on, some index is drawn within one step, less than 12
    pixels, of any position between the edges. *)
Lemma nearest_index (n : nat) (mouseX : Q) :
  (60 <= n)%nat -> 0 <= mouseX <= graphWidth ->
  exists i : nat,
    (i < n)%nat
    /\ Qabs (graphWidth
             - inject_Z (Z.of_nat i) / Qmax (inject_Z (Z.of_nat n) - 1) 59
               * graphWidth
             - mouseX) < 12.
Proof.
  intros Hn [Hx0 Hxw].
  pose proof graphWidth_value as Hw.
  set (m := inject_Z (Z.of_nat n) - 1).
  assert (Em : m == inject_Z (Z.of_nat n - 1)).
  { unfold m, Z.sub. rewrite inject_Z_plus. reflexivity. }
  assert (Hm59 : 59 <= m).
  { rewrite Em. change 59 with (inject_Z 59). rewrite <- Zle_Qle. lia. }
  assert (HM : Qmax m 59 == m) by (apply Q.max_l; exact Hm59).
  set (u := (700 - mouseX) * m / 700).
  assert (Hu0 : 0 <= u) by (unfold u; apply Qle_shift_div_l; nra).
  assert (Hum : u <= m) by (unfold u; apply Qle_shift_div_r; nra).
  set (f := Qfloor u).
  assert (Hf0 : (0 <= f)%Z).
  { change 0%Z with (Qfloor 0). now apply Qfloor_resp_le. }
  assert (Hfn : (f <= Z.of_nat n - 1)%Z).
  { rewrite <- (Qfloor_Z (Z.of_nat n - 1)). apply Qfloor_resp_le.
    now rewrite <- Em. }
  assert (Hfu : inject_Z f <= u) by apply Qfloor_le.
  assert (Huf : u < inject_Z f + 1).
  { pose proof (Qlt_floor u) as Hlt. fold f in Hlt.
    rewrite inject_Z_plus in Hlt. exact Hlt. }
  exists (Z.to_nat f). split; [lia|].
  rewrite Z2Nat.id by exact Hf0. rewrite HM, Hw.
  assert (E : 700 - inject_Z f / m * 700 - mouseX
              == (u - inject_Z f) * (700 / m)).
  { unfold u. field. lra. }
  rewrite E.
  assert (Hstep : 0 < 700 / m) by (apply Qlt_shift_div_l; lra).
  assert (Hstep12 : 700 / m < 12) by (apply Qlt_shift_div_r; lra).
  apply Qabs_Qlt_condition. split; nra.
Qed.

(** X12.  On a sequence of at least 60 points numbered by position (every
    sequence the data layer returns is), the pointer anywhere inside the
    graph area gets a tooltip: some point is always nearer than 12 pixels,
    under the threshold of 20. *)
Theorem full_sequence_always_hit
    (data : list Point) (rect : Rect) (event : MouseEvent)
    (hoveredPoint : option Hovered) :
  indexed data -> (60 <= List.length data)%nat ->
  insideGraph rect event ->
  exists h,
    handleMouseMove data (Some rect) event hoveredPoint = Some h
    /\ In (point h) data
    /\ distance data (pointerX rect event) (point h) < 12.
Proof.
  intros Hidx Hlen Hin.
  destruct (nearest_index (List.length data) (pointerX rect event) Hlen
              (proj1 Hin)) as (i & Hi & Hnear).
  destruct (lookup_lt_is_Some_2 data i Hi) as [q Hq].
  assert (Hdq : distance data (pointerX rect event) q < 12).
  { unfold distance. rewrite (Hidx i q Hq).
    destruct data as [|p rest]; [discriminate|].
    rewrite xScale_cons. exact Hnear. }
  destruct (handleMouseMove_hit data rect event hoveredPoint q Hin)
    as (h & Hh & Hpoint & Hle).
  - apply list_elem_of_In, list_elem_of_lookup. eauto.
  - lra.
  - exists h. split; [exact Hh|]. split; [exact Hpoint | lra].
Qed.

End DenseSequence.

(** The pointer in the middle of the graph, over the generated data. *)
Lemma full_sequence_always_hit_witness :
  exists h,
    handleMouseMove (generateTemperatureData 0 0)
      (Some {| rect_left := 0; rect_top := 0 |})
      {| clientX := 410; clientY := 100 |} None = Some h
    /\ In (point h) (generateTemperatureData 0 0).
Proof.
  destruct (full_sequence_always_hit (generateTemperatureData 0 0)
              {| rect_left := 0; rect_top := 0 |}
              {| clientX := 410; clientY := 100 |} None)
    as (h & Hh & Hpoint & _).
  - apply generated_indexed.
  - unfold generateTemperatureData. rewrite generateFrom_length. lia.
  - vm_compute. repeat split; discriminate.
  - exists h. split; [exact Hh | exact Hpoint].
Defined.

(* ===================================================================== *)
(** * The page: refreshing and adding                                     *)
(* ===================================================================== *)

Section Buttons.
Context `{Host}.

(** X13.  "Refresh Now" goes through [refreshData], which returns at once
    when auto-refresh is off: the button then keeps the displayed data and
    the time of the last fetch, whatever the endpoint would answer.  With
    auto-refresh on the whole sequence is replaced by the outcome of the
    fetch, which is the generated data of 60 points when the fetch failed.
    In both cases the loading flag is cleared. *)
Theorem refreshNow_needs_auto_refresh
    (autoRefresh : bool) (fetched : Fetched) (draw clock : nat) (now : Z)
    (v : View) :
  let v' := refreshNow autoRefresh fetched draw clock now v in
  isLoading v' = false
  /\ (autoRefresh = false ->
      temperatureData v' = temperatureData v
      /\ lastFetchTime v' = lastFetchTime v)
  /\ (autoRefresh = true ->
      temperatureData v' = fetchTemperatureData fetched draw clock
      /\ lastFetchTime v' = Some now
      /\ (failed fetched -> List.length (temperatureData v') = 60%nat)).
Proof.
  intros v'. unfold v', refreshNow, refreshData.
  split; [reflexivity|]. split; intros ->; cbn; [auto|].
  split; [reflexivity|]. split; [reflexivity|].
  intros Hfail.
  destruct (fetchTemperatureData_cases fetched draw clock)
    as [(readings & -> & _) | ->]; [discriminate Hfail|].
  apply generateFrom_length.
Qed.

(** What [POST] does with the body that the page sends. *)
Lemma POST_page_body (temperature : string) (location : option string)
    (platform : option Database) :
  let t := parseFloat (Some (numberToJson (parseFloatString temperature))) in
  POST (Some (addTemperatureReading_body temperature location)) platform
  = if isNaN t || ltb t (of_Z (-50)) || gtb t (of_Z 100)
    then (json (Failure "temperature must be a number between -50 and 100")
               (Some 400%Z), platform)
    else
      match platform with
      | None => (json (Failure "Database not available") (Some 500%Z), None)
      | Some db =>
          try_catch
            ('(db', last_row_id) ←
               run db insertReading
                 [ VNum t; VUndefined; VUndefined;
                   VJson (JStr (jsonStringify
                                  (JObj [("source", JStr "manual_entry")]))) ];
             Ok (json (Saved last_row_id
                         "Temperature reading saved successfully") None,
                 Some db'))
            (json (Failure "Failed to save temperature reading")
                  (Some 500%Z), platform)
      end.
Proof.
  cbv zeta. unfold POST, POST_try, addTemperatureReading_body.
  cbn [mbind result_bind hasOwnProperty lookupProp].
  change (String.eqb "temperature" "hasOwnProperty") with false.
  change (String.eqb "location" "hasOwnProperty") with false.
  change (String.eqb "metadata" "hasOwnProperty") with false.
  change (String.eqb "temperature" "temperature") with true.
  cbn [mbind result_bind negb getProp lookupProp].
  change (String.eqb "temperature" "temperature") with true.
  change (String.eqb "temperature" "device_id") with false.
  change (String.eqb "location" "device_id") with false.
  change (String.eqb "metadata" "device_id") with false.
  change (String.eqb "temperature" "timestamp") with false.
  change (String.eqb "location" "timestamp") with false.
  change (String.eqb "metadata" "timestamp") with false.
  change (String.eqb "temperature" "metadata") with false.
  change (String.eqb "location" "metadata") with false.
  change (String.eqb "metadata" "metadata") with true.
  cbn [ofProp truthy default].
  destruct (_ || _ || _); [reflexivity|].
  destruct platform; reflexivity.
Qed.

(** X14.  [addTemperatureReading] reports success exactly when the
    endpoint stored the reading: the table then holds one more row, whose
    id is the one reported, and the display is replaced by the outcome of
    the refreshing fetch.  Every failure leaves the display and the table
    as they were, and a POST that does not reach the endpoint is reported
    as a network error. *)
Theorem addTemperatureReading_outcomes
    (online : bool) (temperature : string) (location : option string)
    (platform : option Database) (fetched : Fetched) (draw clock : nat)
    (now : Z) (v : View) :
  match addTemperatureReading online temperature location platform
          fetched draw clock now v with
  | (NotAdded error, v', platform') =>
      v' = v /\ platform' = platform
      /\ (online = false -> error = Some "Network error")
      /\ (online = true -> exists message, error = Some message)
  | (Added i, v', platform') =>
      online = true
      /\ temperatureData v' = fetchTemperatureData fetched draw clock
      /\ lastFetchTime v' = Some now
      /\ exists db db' r,
           platform = Some db /\ platform' = Some db'
           /\ rows db' = (rows db ++ [r])%list
           /\ i = Some (D1.id r)
  end.
Proof.
  unfold addTemperatureReading. destruct online; cbn [negb].
  - destruct (POST_cases
                (Some (addTemperatureReading_body temperature location))
                platform)
      as [(Hsame & Hok & _) | (b & db & q & r & _ & -> & _ & _ & _ & _ & E)].
    + destruct (POST _ platform) as [result platform'] eqn:E.
      cbn [fst snd] in Hsame, Hok. rewrite Hok. subst platform'.
      split; [reflexivity|]. split; [reflexivity|].
      split; [discriminate|]. intros _.
      unfold ok in Hok. unfold resultError.
      destruct (Api.body result); try discriminate. eauto.
    + rewrite E. cbn [ok Api.body json resultId temperatureData lastFetchTime].
      split; [reflexivity|]. split; [reflexivity|]. split; [reflexivity|].
      eexists db, _, r. repeat split.
  - split; [reflexivity|]. split; [reflexivity|].
    split; [reflexivity | discriminate].
Qed.

(** X15.  Against a store that refuses [undefined] arguments, which is
    what the page always sends for [device_id] and [timestamp], adding a
    reading never succeeds: the result is a failure carrying the message of
    the validation or of the failed save, and the display and the table
    stay as they were. *)
Theorem addTemperatureReading_never_stored
    (temperature : string) (location : option string) (db : Database)
    (fetched : Fetched) (draw clock : nat) (now : Z) (v : View) :
  on_undefined db = Rejected ->
  exists message,
    addTemperatureReading true temperature location (Some db)
      fetched draw clock now v
    = (NotAdded (Some message), v, Some db)
    /\ (message = "temperature must be a number between -50 and 100"
        \/ message = "Failed to save temperature reading").
Proof.
  intros Hrej. unfold addTemperatureReading. cbn [negb].
  rewrite POST_page_body.
  destruct (_ || _ || _).
  - cbn. eexists. split; [reflexivity | now left].
  - match goal with |- context [run db insertReading ?args] =>
      destruct (run db insertReading args) as [[db' new_id]|] eqn:Hrun
    end.
    + apply run_undefined_device in Hrun as [Hnull _]. congruence.
    + cbn. eexists. split; [reflexivity | now right].
Qed.

End Buttons.

(** The page adding 22.5 degrees to a store that refuses [undefined]. *)
Lemma addTemperatureReading_never_stored_witness :
  let v := {| temperatureData := samplePoints; isLoading := false;
              lastFetchTime := None |} in
  exists message,
    addTemperatureReading true "22.5" (Some "kitchen")
      (Some (sampleDatabase Rejected))
      (Parsed true (Readings sampleReadings)) 0 0 0 v
    = (NotAdded (Some message), v, Some (sampleDatabase Rejected))
    /\ (message = "temperature must be a number between -50 and 100"
        \/ message = "Failed to save temperature reading").
Proof.
  exact (addTemperatureReading_never_stored "22.5" (Some "kitchen")
           (sampleDatabase Rejected)
           (Parsed true (Readings sampleReadings)) 0 0 0
           {| temperatureData := samplePoints; isLoading := false;
              lastFetchTime := None |} eq_refl).
Defined.

(* ===================================================================== *)
(** * The page: summary and grid                                          *)
(* ===================================================================== *)

Section SummaryAndGrid.
Local Open Scope Q_scope.





End SummaryAndGrid.

(* ===================================================================== *)
(** * Refresh scheduler: the whole life of the page                       *)
(* ===================================================================== *)

Section SchedulerLife.

Lemma consistent_at_most_one (s : Scheduler) :
  consistent s -> size (armed (timers s)) <= 1.
Proof.
  intros (_ & Harmed & _).
  destruct (refreshTimer s) as [h|] eqn:Ht.
  - destruct (armed (timers s) !! h) as [d|] eqn:Hd.
    + assert (E : armed (timers s) = {[ h := d ]}).
      { apply map_eq. intros j. destruct (decide (j = h)) as [->|Hne].
        - now rewrite lookup_singleton_eq.
        - rewrite lookup_singleton_ne by congruence.
          destruct (armed (timers s) !! j) as [d'|] eqn:Hj; [|reflexivity].
          apply Harmed in Hj. congruence. }
      rewrite E, map_size_singleton. lia.
    + assert (E : armed (timers s) = ∅).
      { apply map_empty. intros j.
        destruct (armed (timers s) !! j) as [d'|] eqn:Hj; [|reflexivity].
        pose proof (Harmed _ _ Hj). congruence. }
      rewrite E, map_size_empty. lia.
  - assert (E : armed (timers s) = ∅).
    { apply map_empty. intros j.
      destruct (armed (timers s) !! j) as [d'|] eqn:Hj; [|reflexivity].
      apply Harmed in Hj. discriminate. }
    rewrite E, map_size_empty. lia.
Qed.

(** X18.  At every moment of the life of the page (whatever the order of
    the changes of the checkbox and of the select, of the calls of
    [setupAutoRefresh] and of the destruction), at most one interval is
    armed, it is the one whose handle [refreshTimer] holds, and that handle
    is positive and was handed out before. *)
Theorem scheduler_never_leaks (s : Scheduler) :
  reachable s ->
  size (armed (timers s)) <= 1
  /\ (forall h d, armed (timers s) !! h = Some d ->
                  refreshTimer s = Some h
                  /\ (0 < h < next_handle (timers s))%Z).
Proof.
  intros Hr. pose proof (reachable_consistent s Hr) as Hc.
  split; [now apply consistent_at_most_one|].
  destruct Hc as (_ & Harmed & Hheld).
  intros h d Hd. pose proof (Harmed h d Hd) as Ht. auto.
Qed.

(** X19.  Destroying the page clears the interval: in every state the
    page can reach, no interval is armed after [onDestroy], and it stays so
    when the interval or the checkbox changes afterwards without a call of
    [setupAutoRefresh]. *)
Theorem onDestroy_clears_the_interval (s : Scheduler) :
  reachable s ->
  armed (timers (onDestroy s)) = ∅
  /\ reachable (onDestroy s)
  /\ isAutoRefresh (onDestroy s) = isAutoRefresh s
  /\ refreshInterval (onDestroy s) = refreshInterval s.
Proof.
  intros Hr. pose proof (reachable_consistent s Hr) as Hc.
  split; [exact (clearRefreshTimer_armed s Hc)|].
  split; [eapply reachable_step; [exact Hr | apply step_destroy]|].
  split; reflexivity.
Qed.

End SchedulerLife.

(** The page mounted, then destroyed. *)
Lemma onDestroy_clears_the_interval_witness :
  armed (timers (onDestroy (setupAutoRefresh initial))) = ∅
  /\ size (armed (timers (setupAutoRefresh initial))) = 1%nat.
Proof.
  assert (Hr : reachable (setupAutoRefresh initial)).
  { eapply reachable_step; [apply reachable_initial | apply step_setup]. }
  split; [exact (proj1 (onDestroy_clears_the_interval _ Hr))|].
  reflexivity.
Defined.

(** The page mounted, then switched to five seconds. *)
Lemma scheduler_never_leaks_witness :
  let s := setupAutoRefresh
             {| isAutoRefresh := true; refreshInterval := 5;
                refreshTimer := refreshTimer (setupAutoRefresh initial);
                timers := timers (setupAutoRefresh initial) |} in
  size (armed (timers s)) <= 1
  /\ armed (timers s) !! 2%Z = Some 5000%Z.
Proof.
  set (s0 := setupAutoRefresh initial).
  assert (Hr : reachable
                 (setupAutoRefresh
                    {| isAutoRefresh := isAutoRefresh s0;
                       refreshInterval := 5;
                       refreshTimer := refreshTimer s0;
                       timers := timers s0 |})).
  { eapply reachable_step; [|apply step_setup].
    eapply reachable_step; [|apply (step_selected s0 5%Z)].
    eapply reachable_step; [apply reachable_initial | apply step_setup]. }
  cbv zeta. split; [exact (proj1 (scheduler_never_leaks _ Hr))|].
  reflexivity.
Defined.


